(** * slack-autoarchive: the channel reaper, embedded and verified

    A shallow embedding of [slack_autoarchive.py] (class [ChannelReaper]).
    Every definition carries the name of the method, local variable or Python
    operation it stands for.

    Conventions.
    - A Python [str] is a [string]: a sequence of characters with code points
      below 256.
    - Parsed JSON is a [value]; a Python dict is the list of its items, and a
      lookup finds the first item with the key.
    - A naive [datetime] is the number of microseconds between
      1970-01-01T00:00:00 and the wall-clock reading it denotes, so
      [datetime.utcfromtimestamp(0)] is [0] and [<=] is [Z.leb].
    - Python floats that reach the program are given by their value, in [Q].
    - Effects (HTTP requests, sleeping, logging, standard output, the report
      file, [sys.exit], uncaught exceptions) are explicit: a computation maps
      the state of the outside world to an outcome, the next state and the
      events it produced, in order. *)

From Stdlib Require Import ZArith QArith Qround List String Ascii Bool Lia.
From Stdlib Require Import DecimalString.
Import ListNotations.

Set Warnings "-register-all".

Local Open Scope string_scope.
Local Open Scope list_scope.
Local Open Scope Z_scope.

(** ** Strings *)

Module Str.

(** [s.startswith(p)] *)
Fixpoint starts_with (p s : string) : bool :=
  match p, s with
  | EmptyString, _ => true
  | String a p', String b s' => Ascii.eqb a b && starts_with p' s'
  | String _ _, EmptyString => false
  end.

(** [needle in hay] on two strings *)
Fixpoint contains (needle hay : string) : bool :=
  starts_with needle hay ||
  match hay with
  | EmptyString => false
  | String _ hay' => contains needle hay'
  end.

(** [s.lstrip(...)], the characters to remove given as a predicate *)
Fixpoint lstrip (p : ascii -> bool) (s : string) : string :=
  match s with
  | EmptyString => EmptyString
  | String c s' => if p c then lstrip p s' else s
  end.

(** [s.rstrip(...)] *)
Fixpoint rstrip (p : ascii -> bool) (s : string) : string :=
  match s with
  | EmptyString => EmptyString
  | String c s' =>
      match rstrip p s' with
      | EmptyString => if p c then EmptyString else String c EmptyString
      | r => String c r
      end
  end.

(** [s.strip(...)]: both ends *)
Definition strip_with (p : ascii -> bool) (s : string) : string :=
  rstrip p (lstrip p s).

(** [str.isspace] on one character with a code point below 256: the ASCII
    white space, the four separators 0x1c..0x1f, NEL (0x85) and the
    no-break space (0xa0). *)
Definition isspace (c : ascii) : bool :=
  let n := nat_of_ascii c in
  (Nat.leb 9 n && Nat.leb n 13) || (Nat.leb 28 n && Nat.leb n 32)
  || Nat.eqb n 133 || Nat.eqb n 160.

(** [s.strip()] *)
Definition strip (s : string) : string := strip_with isspace s.

(** [s.strip("#")] *)
Definition strip_hash (s : string) : string :=
  strip_with (fun c => Ascii.eqb c "#"%char) s.

(** [s.split(sep)] for a separator of one character; the accumulator holds
    the field being read. *)
Fixpoint split_acc (sep : ascii) (field : string) (s : string) : list string :=
  match s with
  | EmptyString => [field]
  | String c s' =>
      if Ascii.eqb c sep then field :: split_acc sep EmptyString s'
      else split_acc sep (field ++ String c EmptyString)%string s'
  end.

Definition split (sep : ascii) (s : string) : list string :=
  split_acc sep EmptyString s.

(** [sep.join(l)] *)
Definition join (sep : string) (l : list string) : string :=
  String.concat sep l.

(** ["%d" % n] for a length *)
Definition of_nat (n : nat) : string :=
  NilEmpty.string_of_uint (Nat.to_uint n).

(** [bool(s)] *)
Definition truthy (s : string) : bool :=
  match s with EmptyString => false | _ => true end.

End Str.

(** ** JSON values and the Python operations the program applies to them *)

Inductive value : Type :=
| VNone
| VBool (b : bool)
| VInt (n : Z)
| VFloat (q : Q)
| VStr (s : string)
| VList (l : list value)
| VDict (items : list (string * value)).

(** [d.get(key)] on the items of a dict *)
Fixpoint lookup (key : string) (items : list (string * value)) : option value :=
  match items with
  | [] => None
  | (k, v) :: rest => if String.eqb k key then Some v else lookup key rest
  end.

(** [bool(v)] *)
Definition truthy (v : value) : bool :=
  match v with
  | VNone => false
  | VBool b => b
  | VInt n => negb (n =? 0)
  | VFloat q => negb (Qeq_bool q 0)
  | VStr s => Str.truthy s
  | VList l => match l with [] => false | _ => true end
  | VDict d => match d with [] => false | _ => true end
  end.

(** [v == s] for a string [s] *)
Definition eq_str (v : value) (s : string) : bool :=
  match v with
  | VStr t => String.eqb t s
  | _ => false
  end.

(** [key in v] for a string [key]: key membership in a dict, element
    membership in a list, substring in a string, [TypeError] ([None])
    otherwise. *)
Definition py_in (key : string) (v : value) : option bool :=
  match v with
  | VDict d => Some (match lookup key d with Some _ => true | None => false end)
  | VList l => Some (existsb (fun x => eq_str x key) l)
  | VStr s => Some (Str.contains key s)
  | _ => None
  end.

(** [v[key]] for a string [key]: only a dict accepts it, and raises
    [KeyError] when the key is missing. *)
Definition py_getitem (v : value) (key : string) : option value :=
  match v with
  | VDict d => lookup key d
  | _ => None
  end.

(** [for x in v]: the elements the loop visits, [TypeError] ([None]) when
    [v] is not iterable. A dict yields its keys, a string its characters. *)
Fixpoint chars (s : string) : list value :=
  match s with
  | EmptyString => []
  | String c s' => VStr (String c EmptyString) :: chars s'
  end.

Definition py_iter (v : value) : option (list value) :=
  match v with
  | VList l => Some l
  | VDict d => Some (map (fun kv => VStr (fst kv)) d)
  | VStr s => Some (chars s)
  | _ => None
  end.

(** [v in skip] for a set [skip] of strings: hashing a list or a dict raises
    [TypeError]; any other value is looked up, and only a string can be
    found. *)
Definition in_str_set (v : value) (skip : list string) : option bool :=
  match v with
  | VList _ | VDict _ => None
  | VStr s => Some (existsb (String.eqb s) skip)
  | _ => Some false
  end.


(** ** Data model *)

(** A naive [datetime], in microseconds of wall-clock time since
    1970-01-01T00:00:00. *)
Definition datetime : Type := Z.

(** [datetime.utcfromtimestamp(0)] *)
Definition epoch : datetime := 0.

(** [bool(d)] for a [datetime]: the class defines neither [__bool__] nor
    [__len__], so every instance is true. *)
Definition datetime_truthy (d : datetime) : bool := true.

(** The settings read through [self.settings.get(...)]. The module that
    builds them ([config]) is not part of the program text; each field has
    the type the program uses it at. [skip_subtypes] is a set of strings,
    given by its elements; [admin_channel] is empty when no admin channel is
    configured; [whitelist_keywords] is [None] when the setting is missing. *)
Record Settings : Type := {
  slack_token : string;
  bot_slack_token : string;
  dry_run : bool;
  min_members : Z;
  days_inactive : Z;
  too_old_datetime : datetime;
  admin_channel : string;
  skip_subtypes : list string;
  skip_channel_str : string;
  whitelist_keywords : option string
}.

(** [self]: the reaper holds its settings (and a logger, whose output is an
    event). *)
Record ChannelReaper : Type := { settings : Settings }.

(** The flat record [get_all_channels] builds for each channel, with the
    types of the Slack schema: texts for [id], [name], [topic] and
    [purpose], an integer for [num_members]. [created] is kept as received:
    the program only passes it to [float]. *)
Record Channel : Type := {
  id : string;
  name : string;
  created : value;
  num_members : Z;
  topic : string;
  purpose : string
}.

Inductive verb : Type := GET | POST.

(** What [requests.get] or [requests.post] is called with: [payload] is the
    query string of a GET and the form body of a POST. *)
Record request : Type := {
  req_verb : verb;
  req_uri : string;
  req_payload : list (string * value);
  req_authorization : string
}.

(** What the program reads of a response: [status_code], [json()] ([None]
    when the body does not parse, which raises) and [headers["Retry-After"]]
    ([None] when the header is missing, which raises). *)
Record response : Type := {
  status_code : Z;
  json : option value;
  retry_after : option string
}.

Inductive event : Type :=
| EvSleep (seconds : Q)
| EvHttp (r : request)
| EvLogInfo (msg : string)
| EvLogError (msg : string)
| EvStdout (text : string)
| EvWriteFile (file_name content : string).

(** The interpreter, the libraries and the world outside the process.
    - [Env] is the state of the outside world; [http_send] is one HTTP
      exchange ([None]: [requests] raises), [sleep] lets time pass.
    - [now_stamp] is [datetime.now().strftime("%m%d%Y%H%M%S")].
    - [py_float] is [float(v)] and [fromtimestamp] is
      [datetime.fromtimestamp], each [None] where Python raises.
    - [str_format alert n] is [alert.format(days_inactive=n)].
    - [recursion_limit] is the number of nested [slack_api_http] frames the
      interpreter allows before it raises [RecursionError].
    - [whitelist_txt] holds what [readlines()] gives for ["whitelist.txt"]
      ([None]: no such file); [templates_json] what [json.load] gives for
      ["templates.json"] ([None]: opening or parsing raises). *)
Class Runtime : Type := {
  Env : Type;
  http_send : Env -> request -> Env * option response;
  sleep : Env -> Q -> Env;
  now_stamp : Env -> string;
  py_float : value -> option Q;
  fromtimestamp : Q -> option datetime;
  str_format : string -> Z -> option string;
  recursion_limit : nat;
  whitelist_txt : option (list string);
  templates_json : option value
}.

(** ** Computations *)

(** How a call ends: it returns, an exception leaves it, or [sys.exit]
    ends the process. *)
Inductive outcome (A : Type) : Type :=
| Ret (a : A)
| Raise
| Exit (code : Z).

Arguments Ret {A} a.
Arguments Raise {A}.
Arguments Exit {A} code.

Definition M `{Runtime} (A : Type) : Type := Env -> outcome A * Env * list event.

Definition ret `{Runtime} {A} (a : A) : M A := fun e => (Ret a, e, []).

Definition bind `{Runtime} {A B} (m : M A) (f : A -> M B) : M B :=
  fun e =>
    match m e with
    | (Ret a, e1, ev1) =>
        match f a e1 with
        | (o, e2, ev2) => (o, e2, ev1 ++ ev2)
        end
    | (Raise, e1, ev1) => (Raise, e1, ev1)
    | (Exit code, e1, ev1) => (Exit code, e1, ev1)
    end.

(** The result [r] of a computation, with the events [evs] before its own *)
Definition after `{Runtime} {A} (evs : list event)
    (r : outcome A * Env * list event) : outcome A * Env * list event :=
  (fst (fst r), snd (fst r), evs ++ snd r).

Notation "x <- m ;; k" := (bind m (fun x => k))
  (at level 61, m at next level, right associativity).
Notation "m ;; k" := (bind m (fun _ => k))
  (at level 61, right associativity).

(** An operation that raises where it is [None]. *)
Definition lift `{Runtime} {A} (o : option A) : M A :=
  fun e => match o with Some a => (Ret a, e, []) | None => (Raise, e, []) end.

Definition raise `{Runtime} {A} : M A := fun e => (Raise, e, []).

(** [sys.exit(code)]: [SystemExit] is not an [Exception], so no handler of
    the program stops it. *)
Definition sys_exit `{Runtime} {A} (code : Z) : M A := fun e => (Exit code, e, []).

Definition emit `{Runtime} (ev : event) : M unit := fun e => (Ret tt, e, [ev]).

(** [time.sleep(seconds)] *)
Definition time_sleep `{Runtime} (seconds : Q) : M unit :=
  fun e => (Ret tt, sleep e seconds, [EvSleep seconds]).

(** [requests.get(...)] or [requests.post(...)] *)
Definition requests_send `{Runtime} (r : request) : M response :=
  fun e =>
    match http_send e r with
    | (e1, Some resp) => (Ret resp, e1, [EvHttp r])
    | (e1, None) => (Raise, e1, [EvHttp r])
    end.

(** [datetime.now().strftime("%m%d%Y%H%M%S")] *)
Definition strftime_now `{Runtime} : M string := fun e => (Ret (now_stamp e), e, []).

(** ** The two kinds of sequence [get_whitelist_keywords] handles *)

(** A list, or the iterator [map(f, l)] returns, given by the elements it
    will yield. *)
Inductive pyseq : Type :=
| PyList (l : list string)
| PyMap (yields : list string).

(** [map(f, l)] for a list [l]: an iterator, not a list. *)
Definition py_map (f : string -> string) (l : list string) : pyseq :=
  PyMap (map f l).

(** [a + b]: defined on two lists; a [map] object has no [+], and
    [list.__radd__] does not exist, so anything else raises [TypeError]. *)
Definition py_add (a b : pyseq) : option pyseq :=
  match a, b with
  | PyList x, PyList y => Some (PyList (x ++ y))
  | _, _ => None
  end.

(** [list(a)] *)
Definition py_list (a : pyseq) : list string :=
  match a with
  | PyList l => l
  | PyMap l => l
  end.

(** ** The methods of [ChannelReaper] *)

Section Methods.

Context `{RT : Runtime} (self : ChannelReaper).

(** [get_whitelist_keywords] *)
Definition get_whitelist_keywords : M (list string) :=
  let keywords :=
    match whitelist_txt with
    | Some lines => lines
    | None => []
    end in
  let keywords := py_map Str.strip keywords in
  match whitelist_keywords (settings self) with
  | Some text =>
      if Str.truthy text then
        keywords <- lift (py_add keywords (PyList (Str.split ","%char text))) ;;
        ret (py_list keywords)
      else ret (py_list keywords)
  | None => ret (py_list keywords)
  end.

(** [get_channel_alerts] *)
Definition get_channel_alerts : M value := lift templates_json.

(** [slack_api_http]. The first argument is the number of frames of this
    method the interpreter still allows: when none is left the call raises
    [RecursionError], an [Exception]. Every exception raised inside the
    [try] leaves as an [Exception]; [SystemExit] passes through. The
    recursive call passes four arguments, so its [as_bot] is the default
    [False]. *)
Fixpoint slack_api_http (frames : nat) (api_endpoint : string)
    (payload : list (string * value)) (method : string) (retry_delay : Q)
    (as_bot : bool) : M value :=
  match frames with
  | O => raise
  | S frames' =>
      let uri := ("https://slack.com/api/" ++ api_endpoint)%string in
      let token :=
        if as_bot then bot_slack_token (settings self)
        else slack_token (settings self) in
      let headers := ("Bearer " ++ token)%string in
      (if Qlt_le_dec 0 retry_delay then time_sleep retry_delay else ret tt) ;;
      response <-
        requests_send
          {| req_verb := if String.eqb method "POST" then POST else GET;
             req_uri := uri;
             req_payload := payload;
             req_authorization := headers |} ;;
      if status_code response =? 200 then
        body <- lift (json response) ;;
        has_error <- lift (py_in "error" body) ;;
        not_authed <-
          (if has_error : bool then
             err <- lift (py_getitem body "error") ;;
             ret (eq_str err "not_authed")
           else ret false) ;;
        if not_authed : bool then
          emit (EvLogError
            "Need to setup auth. eg, SLACK_TOKEN=<secret token> python slack-autoarchive.py") ;;
          sys_exit 1
        else
          ok <- lift (py_getitem body "ok") ;;
          if truthy ok then ret body else ret VNone
      else if status_code response =? 429 then
        header <- lift (retry_after response) ;;
        retry_timeout <- lift (py_float (VStr header)) ;;
        slack_api_http frames' api_endpoint payload method retry_timeout false
      else ret VNone
  end.

(** The projection of one raw channel object in [get_all_channels]. A
    missing key raises [KeyError]; a field outside the Slack schema has no
    place in [Channel] and is treated the same way. *)
Definition project_channel (raw : value) : option Channel :=
  match py_getitem raw "id", py_getitem raw "name", py_getitem raw "created",
        py_getitem raw "num_members", py_getitem raw "topic",
        py_getitem raw "purpose" with
  | Some (VStr i), Some (VStr n), Some c, Some (VInt m), Some t, Some p =>
      match py_getitem t "value", py_getitem p "value" with
      | Some (VStr tv), Some (VStr pv) =>
          Some {| id := i; name := n; created := c; num_members := m;
                  topic := tv; purpose := pv |}
      | _, _ => None
      end
  | _, _, _, _, _, _ => None
  end.

(** The loop of [get_all_channels] *)
Fixpoint project_channels (channels : list value) : option (list Channel) :=
  match channels with
  | [] => Some []
  | raw :: rest =>
      match project_channel raw with
      | Some c =>
          match project_channels rest with
          | Some cs => Some (c :: cs)
          | None => None
          end
      | None => None
      end
  end.

(** [get_all_channels] *)
Definition get_all_channels : M (list Channel) :=
  let payload := [("exclude_archived", VInt 1); ("limit", VInt 1000)] in
  let api_endpoint := "conversations.list" in
  listing <- slack_api_http recursion_limit api_endpoint payload "GET" 0 false ;;
  channels <- lift (py_getitem listing "channels") ;;
  channels <- lift (py_iter channels) ;;
  lift (project_channels channels).

(** The [for] loop of [get_last_message_timestamp]: [continue] on a
    skipped subtype, [break] at the first message that counts. *)
Fixpoint scan_messages (messages : list value) (last_message_datetime : datetime)
    : option datetime :=
  match messages with
  | [] => Some last_message_datetime
  | message :: rest =>
      match py_in "subtype" message with
      | None => None
      | Some has_subtype =>
          let skipped :=
            if has_subtype then
              match py_getitem message "subtype" with
              | Some subtype => in_str_set subtype (skip_subtypes (settings self))
              | None => None
              end
            else Some false in
          match skipped with
          | None => None
          | Some true => scan_messages rest last_message_datetime
          | Some false =>
              match py_getitem message "ts" with
              | Some ts =>
                  match py_float ts with
                  | Some seconds => fromtimestamp seconds
                  | None => None
                  end
              | None => None
              end
          end
      end
  end.

(** [get_last_message_timestamp] *)
Definition get_last_message_timestamp (channel_history : value)
    (too_old_datetime : datetime) : option datetime :=
  let last_message_datetime := too_old_datetime in
  if negb (truthy channel_history) then Some epoch
  else
    match py_in "messages" channel_history with
    | None => None
    | Some false => Some last_message_datetime
    | Some true =>
        match py_getitem channel_history "messages" with
        | None => None
        | Some messages =>
            match py_iter messages with
            | None => None
            | Some messages =>
                match scan_messages messages last_message_datetime with
                | None => None
                | Some last_message_datetime =>
                    if negb (datetime_truthy last_message_datetime)
                    then Some epoch
                    else Some last_message_datetime
                end
            end
        end
    end.

(** The local [has_min_users] of [is_channel_disused] *)
Definition has_min_users (num_members : Z) : bool :=
  let min_members := min_members (settings self) in
  (min_members =? 0) || (min_members >? num_members).

(** [datetime.fromtimestamp(float(v))] *)
Definition fromtimestamp_float (v : value) : option datetime :=
  match py_float v with
  | Some seconds => fromtimestamp seconds
  | None => None
  end.

(** [is_channel_disused] *)
Definition is_channel_disused (channel : Channel) (too_old_datetime : datetime)
    : M bool :=
  let num_members := num_members channel in
  let payload := [("inclusive", VInt 0); ("oldest", VInt 0); ("count", VInt 50)] in
  let api_endpoint := "conversations.history" in
  let payload := payload ++ [("channel", VStr (id channel))] in
  channel_history <-
    slack_api_http recursion_limit api_endpoint payload "GET" 0 false ;;
  created <- lift (fromtimestamp_float (created channel)) ;;
  last_message_datetime <-
    lift (get_last_message_timestamp channel_history created) ;;
  let last_message_is_too_old := last_message_datetime <=? too_old_datetime in
  ret (last_message_is_too_old && has_min_users num_members).

(** The [for] loop of [is_channel_whitelisted] *)
Fixpoint name_whitelisted (channel_name : string)
    (white_listed_channels : list string) : bool :=
  match white_listed_channels with
  | [] => false
  | white_listed_channel :: rest =>
      let wl_channel_name := Str.strip_hash white_listed_channel in
      if Str.contains wl_channel_name channel_name then true
      else name_whitelisted channel_name rest
  end.

(** [is_channel_whitelisted] *)
Definition is_channel_whitelisted (channel : Channel)
    (white_listed_channels : list string) : bool :=
  let channel_purpose := purpose channel in
  let channel_topic := topic channel in
  if Str.contains (skip_channel_str (settings self)) channel_purpose
     || Str.contains (skip_channel_str (settings self)) channel_topic
  then true
  else name_whitelisted (name channel) white_listed_channels.

(** [send_channel_message] *)
Definition send_channel_message (channel_id : string) (message : string) : M unit :=
  let payload :=
    [("channel", VStr channel_id); ("username", VStr "Auto Archiver");
     ("icon_emoji", VStr ":wave:"); ("text", VStr message)] in
  let api_endpoint := "chat.postMessage" in
  slack_api_http recursion_limit api_endpoint payload "POST" 0 true ;;
  ret tt.

(** [alert.format(days_inactive=...)]: only a [str] has the method. *)
Definition format_alert (alert : value) : option string :=
  match alert with
  | VStr template => str_format template (days_inactive (settings self))
  | _ => None
  end.

(** [archive_channel] *)
Definition archive_channel (channel : Channel) (alert : value) : M unit :=
  let api_endpoint := "conversations.archive" in
  let stdout_message := ("Archiving channel... " ++ name channel)%string in
  emit (EvLogInfo stdout_message) ;;
  if negb (dry_run (settings self)) then
    channel_message <- lift (format_alert alert) ;;
    send_channel_message (id channel) channel_message ;;
    let payload := [("channel", VStr (id channel))] in
    slack_api_http recursion_limit api_endpoint payload "GET" 0 false ;;
    emit (EvLogInfo stdout_message)
  else ret tt.

(** [send_admin_report] *)
Definition send_admin_report (channels : list Channel) : M unit :=
  if Str.truthy (admin_channel (settings self)) then
    let channel_names :=
      Str.join ", " (map (fun channel : Channel => ("#" ++ name channel)%string) channels) in
    let admin_msg :=
      ("Archiving " ++ Str.of_nat (List.length channels) ++ " channels: "
         ++ channel_names)%string in
    let admin_msg :=
      if dry_run (settings self) then ("[DRY RUN] " ++ admin_msg)%string
      else admin_msg in
    send_channel_message (admin_channel (settings self)) admin_msg
  else ret tt.

(** What [generate_report] writes *)
Definition report_content (channels : list Channel) : string :=
  Str.join (String "010"%char EmptyString) (map name channels).

(** [generate_report] *)
Definition generate_report (channels : list Channel) : M unit :=
  stamp <- strftime_now ;;
  let file_name := ("report-" ++ stamp ++ ".txt")%string in
  emit (EvWriteFile file_name (report_content channels)).

(** One turn of the loop of [main], from the list archived so far to the
    list after the turn. *)
Definition main_loop_body (whitelist_keywords : list string)
    (alert_templates : value) (archived_channels : list Channel)
    (channel : Channel) : M (list Channel) :=
  emit (EvStdout ".") ;;
  let channel_whitelisted := is_channel_whitelisted channel whitelist_keywords in
  channel_disused <-
    is_channel_disused channel (too_old_datetime (settings self)) ;;
  if negb channel_whitelisted && channel_disused then
    let archived_channels := archived_channels ++ [channel] in
    alert <- lift (py_getitem alert_templates "channel_template") ;;
    archive_channel channel alert ;;
    ret archived_channels
  else ret archived_channels.

(** The loop of [main] *)
Fixpoint main_loop (whitelist_keywords : list string) (alert_templates : value)
    (channels : list Channel) (archived_channels : list Channel)
    : M (list Channel) :=
  match channels with
  | [] => ret archived_channels
  | channel :: rest =>
      archived_channels <-
        main_loop_body whitelist_keywords alert_templates archived_channels
          channel ;;
      main_loop whitelist_keywords alert_templates rest archived_channels
  end.

(** [main] *)
Definition main : M unit :=
  (if dry_run (settings self)
   then emit (EvLogInfo "THIS IS A DRY RUN. NO CHANNELS ARE ACTUALLY ARCHIVED.")
   else ret tt) ;;
  whitelist_keywords <- get_whitelist_keywords ;;
  alert_templates <- get_channel_alerts ;;
  channels <- get_all_channels ;;
  archived_channels <- main_loop whitelist_keywords alert_templates channels [] ;;
  send_admin_report archived_channels ;;
  generate_report archived_channels.

End Methods.

(** ** Notions the statements use *)

(** [needle] occurs in [hay] *)
Definition is_substring (needle hay : string) : Prop :=
  exists before after, hay = (before ++ needle ++ after)%string.

(** A message of the history that carries a subtype of the skipped set *)
Definition skipped_message (self : ChannelReaper) (message : value) : Prop :=
  exists fields subtype,
    message = VDict fields /\
    lookup "subtype" fields = Some (VStr subtype) /\
    In subtype (skip_subtypes (settings self)).

(** The request [is_channel_disused] issues for a channel *)
Definition history_request (self : ChannelReaper) (channel : Channel) : request :=
  {| req_verb := GET;
     req_uri := "https://slack.com/api/conversations.history";
     req_payload :=
       [("inclusive", VInt 0); ("oldest", VInt 0); ("count", VInt 50);
        ("channel", VStr (id channel))];
     req_authorization := ("Bearer " ++ slack_token (settings self))%string |}.

(** The turns of the loop of [main], in the words of the design: each listed
    channel has a turn; in it the disuse evaluation runs whatever the
    whitelist says; the channel is archived, and recorded, exactly when it
    is not whitelisted and is disused. A turn is recorded with its
    decision. *)
Inductive turns `{RT : Runtime} (self : ChannelReaper) (whitelist : list string)
    (alert_templates : value)
    : list Channel -> Env -> list (Channel * bool) -> Env -> list event -> Prop :=
| turns_done (e : Env) : turns self whitelist alert_templates [] e [] e []
| turns_next (channel : Channel) (rest : list Channel) (e e1 e2 e3 : Env)
    (disused : bool) (ev1 ev2 ev3 : list event) (ts : list (Channel * bool)) :
    is_channel_disused self channel (too_old_datetime (settings self)) e
      = (Ret disused, e1, ev1) ->
    (if negb (is_channel_whitelisted self channel whitelist) && disused
     then exists alert,
            py_getitem alert_templates "channel_template" = Some alert /\
            archive_channel self channel alert e1 = (Ret tt, e2, ev2)
     else e2 = e1 /\ ev2 = []) ->
    turns self whitelist alert_templates rest e2 ts e3 ev3 ->
    turns self whitelist alert_templates (channel :: rest) e
      ((channel,
        negb (is_channel_whitelisted self channel whitelist) && disused) :: ts)
      e3 (EvStdout "." :: ev1 ++ ev2 ++ ev3).

(** The channels the turns decided to archive, in order *)
Definition archived_of (ts : list (Channel * bool)) : list Channel :=
  map fst (filter snd ts).

(** A run of the orchestrator from [e] to [e'] with the events [evs], in the
    words of the design: the whitelist keywords and the alert templates are
    read, the channels are listed, every listed channel has its turn (with
    the request for its history among the events of the loop), then the
    admin report is sent for the channels archived, then the file report is
    written with their names. *)
Definition orchestrated `{RT : Runtime} (self : ChannelReaper) (e e' : Env)
    (evs : list event) : Prop :=
  exists whitelist alert_templates channels e0 ev0 ts e1 ev1 ev2,
    get_whitelist_keywords self e = (Ret whitelist, e, []) /\
    templates_json = Some alert_templates /\
    get_all_channels self e = (Ret channels, e0, ev0) /\
    turns self whitelist alert_templates channels e0 ts e1 ev1 /\
    map fst ts = channels /\
    (forall channel, In channel channels ->
       In (EvHttp (history_request self channel)) ev1) /\
    send_admin_report self (archived_of ts) e1 = (Ret tt, e', ev2) /\
    evs =
      (if dry_run (settings self)
       then [EvLogInfo "THIS IS A DRY RUN. NO CHANNELS ARE ACTUALLY ARCHIVED."]
       else [])
      ++ ev0 ++ ev1 ++ ev2
      ++ [EvWriteFile ("report-" ++ now_stamp e' ++ ".txt")%string
            (report_content (archived_of ts))].

(** The contents of the files written, in order *)
Fixpoint reports (evs : list event) : list string :=
  match evs with
  | [] => []
  | EvWriteFile _ content :: rest => content :: reports rest
  | _ :: rest => reports rest
  end.

(** The events with the names of the files written left out *)
Definition erase_name (ev : event) : event :=
  match ev with
  | EvWriteFile _ content => EvWriteFile "" content
  | _ => ev
  end.

(** A call to the archive endpoint *)
Definition is_archive_request (ev : event) : bool :=
  match ev with
  | EvHttp r => String.eqb (req_uri r) "https://slack.com/api/conversations.archive"
  | _ => false
  end.

(** Two states of the outside world hold the same upstream data when they
    are related by a relation that every exchange and every sleep
    preserves, and under which the same request gets the same response. The
    clock may differ. *)
Definition same_upstream `{RT : Runtime} (R : Env -> Env -> Prop) : Prop :=
  (forall e1 e2 r, R e1 e2 ->
     snd (http_send e1 r) = snd (http_send e2 r) /\
     R (fst (http_send e1 r)) (fst (http_send e2 r))) /\
  (forall e1 e2 seconds, R e1 e2 -> R (sleep e1 seconds) (sleep e2 seconds)).

(** Two runs agree: same outcome, related final states, same events up to
    the names of the files written. *)
Definition agree `{RT : Runtime} {A} (R : Env -> Env -> Prop)
    (r1 r2 : outcome A * Env * list event) : Prop :=
  fst (fst r1) = fst (fst r2) /\
  R (snd (fst r1)) (snd (fst r2)) /\
  map erase_name (snd r1) = map erase_name (snd r2).

(** The same computation run from two related states gives agreeing runs. *)
Definition simulates `{RT : Runtime} {A} (R : Env -> Env -> Prop) (m : M A) : Prop :=
  forall e1 e2, R e1 e2 -> agree R (m e1) (m e2).

(** No event of the list is a call to the archive endpoint *)
Definition no_archive_request (evs : list event) : bool :=
  forallb (fun ev => negb (is_archive_request ev)) evs.

(** A computation that never calls the archive endpoint *)
Definition quiet `{RT : Runtime} {A} (m : M A) : Prop :=
  forall e, no_archive_request (snd (m e)) = true.

(** ** A concrete runtime, for running the methods *)

Module Sample.

(** [float] on an integer and on a text of decimal digits; the other
    arguments are taken to raise. *)
Definition float (v : value) : option Q :=
  match v with
  | VInt n => Some (inject_Z n)
  | VStr EmptyString => None
  | VStr s =>
      match NilEmpty.uint_of_string s with
      | Some u => Some (inject_Z (Z.of_uint u))
      | None => None
      end
  | _ => None
  end.

(** The outside world: the responses the server will give, in order, and
    the wall clock in seconds. The local zone is UTC. *)
Definition world : Type := list response * Z.

Definition send (e : world) (r : request) : world * option response :=
  match fst e with
  | [] => (e, None)
  | resp :: rest => ((rest, snd e), Some resp)
  end.

Definition stamp (seconds : Z) : string :=
  NilEmpty.string_of_uint (N.to_uint (Z.to_N seconds)).

#[export] Instance runtime : Runtime := {|
  Env := world;
  http_send := send;
  sleep := fun e seconds => (fst e, snd e + Qceiling seconds);
  now_stamp := fun e => stamp (snd e);
  py_float := float;
  fromtimestamp := fun seconds => Some (Qfloor (seconds * 1000000));
  str_format := fun template _ => Some template;
  recursion_limit := 990;
  whitelist_txt := Some ["general" ++ String "010"%char ""; "#ops " ++ String "010"%char ""]%string;
  templates_json := Some (VDict [("channel_template", VStr "This channel is archived.")])
|}.

Definition base_settings : Settings := {|
  slack_token := "xoxp-user";
  bot_slack_token := "xoxb-bot";
  dry_run := true;
  min_members := 5;
  days_inactive := 60;
  too_old_datetime := 1600000000000000;
  admin_channel := "";
  skip_subtypes := ["channel_leave"; "channel_join"];
  skip_channel_str := "%noarchive";
  whitelist_keywords := None
|}.

Definition reaper : ChannelReaper := {| settings := base_settings |}.

(** The same settings with a whitelist-keywords setting *)
Definition reaper_with_keywords : ChannelReaper :=
  {| settings := {|
       slack_token := "xoxp-user";
       bot_slack_token := "xoxb-bot";
       dry_run := true;
       min_members := 5;
       days_inactive := 60;
       too_old_datetime := 1600000000000000;
       admin_channel := "";
       skip_subtypes := ["channel_leave"; "channel_join"];
       skip_channel_str := "%noarchive";
       whitelist_keywords := Some "ops,random"
     |} |}.

Definition old_proj : Channel := {|
  id := "C01"; name := "old-proj"; created := VInt 1000000000;
  num_members := 3; topic := ""; purpose := ""
|}.

Definition full_house : Channel := {|
  id := "C02"; name := "full-house"; created := VInt 1000000000;
  num_members := 5; topic := ""; purpose := ""
|}.

Definition keep_alive : Channel := {|
  id := "C03"; name := "keep"; created := VInt 1000000000;
  num_members := 1; topic := ""; purpose := "please %noarchive this"
|}.

Definition ok (body : list (string * value)) : response :=
  {| status_code := 200; json := Some (VDict (("ok", VBool true) :: body));
     retry_after := None |}.

Definition too_many_requests (seconds : string) : response :=
  {| status_code := 429; json := None; retry_after := Some seconds |}.

Definition raw (c : Channel) : value :=
  VDict [("id", VStr (id c)); ("name", VStr (name c)); ("created", created c);
         ("num_members", VInt (num_members c));
         ("topic", VDict [("value", VStr (topic c))]);
         ("purpose", VDict [("value", VStr (purpose c))])].

Definition join_message : value :=
  VDict [("type", VStr "message"); ("subtype", VStr "channel_join");
         ("ts", VStr "1700000000")].

(** A run of [main]: the listing of three channels, then one history per
    channel. *)
Definition script : list response :=
  [ ok [("channels", VList [raw old_proj; raw full_house; raw keep_alive])];
    ok [("messages", VList [])];
    ok [("messages", VList [join_message])];
    ok [] ].

End Sample.

(** ** Requests and counts the further properties speak of *)

(** What a call of [slack_api_http] sends *)
Definition api_request (self : ChannelReaper) (api_endpoint : string)
    (payload : list (string * value)) (method : string) (as_bot : bool)
    : request :=
  {| req_verb := if String.eqb method "POST" then POST else GET;
     req_uri := ("https://slack.com/api/" ++ api_endpoint)%string;
     req_payload := payload;
     req_authorization :=
       ("Bearer " ++ (if as_bot then bot_slack_token (settings self)
                      else slack_token (settings self)))%string |}.

(** The request of [get_all_channels] *)
Definition listing_request (self : ChannelReaper) : request :=
  api_request self "conversations.list"
    [("exclude_archived", VInt 1); ("limit", VInt 1000)] "GET" false.

(** The request [send_channel_message] sends *)
Definition message_request (self : ChannelReaper) (channel_id message : string)
    : request :=
  api_request self "chat.postMessage"
    [("channel", VStr channel_id); ("username", VStr "Auto Archiver");
     ("icon_emoji", VStr ":wave:"); ("text", VStr message)] "POST" true.

(** The request [archive_channel] sends to archive a channel *)
Definition archive_request (self : ChannelReaper) (channel : Channel) : request :=
  api_request self "conversations.archive" [("channel", VStr (id channel))]
    "GET" false.

(** The text [send_admin_report] composes *)
Definition admin_text (self : ChannelReaper) (channels : list Channel) : string :=
  let listed :=
    ("Archiving " ++ Str.of_nat (List.length channels) ++ " channels: "
       ++ Str.join ", "
            (map (fun channel : Channel => ("#" ++ name channel)%string)
               channels))%string in
  if dry_run (settings self) then ("[DRY RUN] " ++ listed)%string else listed.

(** The line [slack_api_http] logs before it ends the process *)
Definition not_authed_line : string :=
  "Need to setup auth. eg, SLACK_TOKEN=<secret token> python slack-autoarchive.py".



(** A response that is neither a success nor a rate limit *)
Definition other_status (resp : response) : Prop :=
  status_code resp <> 200 /\ status_code resp <> 429.

(** A text without the character [c] *)
Fixpoint lacks (c : ascii) (s : string) : bool :=
  match s with
  | EmptyString => true
  | String a s' => negb (Ascii.eqb a c) && lacks c s'
  end.

(** The first and the last character of a text satisfy [p] nowhere: the
    text is empty or starts and ends outside [p]. *)
Definition trimmed (p : ascii -> bool) (s : string) : Prop :=
  Str.lstrip p s = s /\ Str.rstrip p s = s.




(** Every event of a computation satisfies [P] *)
Definition always `{RT : Runtime} {A} (P : event -> Prop) (m : M A) : Prop :=
  forall e, Forall P (snd (m e)).

(** An event that is not a file written and, when it is a call to the
    archive endpoint, is the archive request of one of the channels
    [allowed]. *)
Definition harmless (self : ChannelReaper) (allowed : list Channel) (ev : event)
    : Prop :=
  match ev with
  | EvWriteFile _ _ => False
  | EvHttp r =>
      is_archive_request ev = true ->
      exists channel, In channel allowed /\ r = archive_request self channel
  | _ => True
  end.

(** A response after which [slack_api_http] returns [None]: a status that
    is neither 200 nor 429, or a refusal other than ["not_authed"]. *)
Definition declined (resp : response) : Prop :=
  other_status resp \/
  (status_code resp = 200 /\
   exists body ok,
     json resp = Some (VDict body) /\
     (forall err, lookup "error" body = Some err ->
        eq_str err "not_authed" = false) /\
     lookup "ok" body = Some ok /\ truthy ok = false).

(** Further runtimes and settings for running the methods *)
Module Cases.


(** The sample runtime without a templates file *)
#[export] Instance no_templates : Runtime := {|
  Env := Sample.world;
  http_send := Sample.send;
  sleep := fun e seconds => (fst e, snd e + Qceiling seconds);
  now_stamp := fun e => Sample.stamp (snd e);
  py_float := Sample.float;
  fromtimestamp := fun seconds => Some (Qfloor (seconds * 1000000));
  str_format := fun template _ => Some template;
  recursion_limit := 990;
  whitelist_txt := None;
  templates_json := None
|}.

Definition with_mode (dry admin : bool) : ChannelReaper :=
  {| settings := {|
       slack_token := "xoxp-user";
       bot_slack_token := "xoxb-bot";
       dry_run := dry;
       min_members := 5;
       days_inactive := 60;
       too_old_datetime := 1600000000000000;
       admin_channel := if admin then "C99" else "";
       skip_subtypes := ["channel_leave"; "channel_join"];
       skip_channel_str := "%noarchive";
       whitelist_keywords := None
     |} |}.

(** A live run, without and with an admin channel; a dry run with one *)
Definition live : ChannelReaper := with_mode false false.
Definition live_admin : ChannelReaper := with_mode false true.
Definition dry_admin : ChannelReaper := with_mode true true.

Definition failure (status : Z) : response :=
  {| status_code := status; json := None; retry_after := None |}.

Definition refusal (error : string) : response :=
  {| status_code := 200;
     json := Some (VDict [("ok", VBool false); ("error", VStr error)]);
     retry_after := None |}.

Definition plain_message (ts : string) : value :=
  VDict [("type", VStr "message"); ("ts", VStr ts)].

End Cases.

(** ** Facts about the string operations *)

Lemma starts_with_spec (p s : string) :
  Str.starts_with p s = true <-> exists t, s = (p ++ t)%string.
Proof.
  revert s; induction p as [|a p IH]; intros s; simpl.
  - split; [intros _; now exists s | reflexivity].
  - destruct s as [|b s].
    + split; [discriminate | intros [t H]; discriminate].
    + rewrite andb_true_iff, Ascii.eqb_eq, IH. split.
      * intros [-> [t ->]]. now exists t.
      * intros [t H]. injection H as -> ->. split; [reflexivity | now exists t].
Qed.

Lemma contains_spec (needle hay : string) :
  Str.contains needle hay = true <-> is_substring needle hay.
Proof.
  induction hay as [|c hay IH].
  - simpl. rewrite orb_false_r, starts_with_spec. split.
    + intros [t H]. now exists "", t.
    + intros [a [b H]]. destruct a; [now exists b | discriminate].
  - cbn [Str.contains]. rewrite orb_true_iff, starts_with_spec, IH. split.
    + intros [[t H] | [a [b H]]].
      * now exists "", t.
      * exists (String c a), b. simpl. now rewrite H.
    + intros [a [b H]]. destruct a as [|c' a].
      * left. now exists b.
      * right. injection H as _ H. now exists a, b.
Qed.

Lemma contains_empty (hay : string) : Str.contains "" hay = true.
Proof. destruct hay; reflexivity. Qed.

(** ** Computations: how a normal return decomposes *)

Section Computations.

Context `{RT : Runtime}.

Lemma bind_ret_inv {A B} (m : M A) (f : A -> M B) (e e' : Env) (b : B)
    (evs : list event) :
  bind m f e = (Ret b, e', evs) ->
  exists a e1 ev1 ev2,
    m e = (Ret a, e1, ev1) /\ f a e1 = (Ret b, e', ev2) /\ evs = ev1 ++ ev2.
Proof.
  unfold bind. destruct (m e) as [[[a| |code] e1] ev1]; try discriminate.
  destruct (f a e1) as [[o e2] ev2] eqn:Hf. intros H. injection H as -> -> <-.
  now exists a, e1, ev1, ev2.
Qed.

Lemma bind_ret {A B} (m : M A) (f : A -> M B) (e e1 : Env) (a : A)
    (ev1 : list event) :
  m e = (Ret a, e1, ev1) ->
  bind m f e = after ev1 (f a e1).
Proof.
  intros H. unfold bind, after. rewrite H. now destruct (f a e1) as [[o e2] ev2].
Qed.

Lemma after_nil {A} (r : outcome A * Env * list event) : after [] r = r.
Proof. now destruct r as [[o e] evs]. Qed.

Lemma after_after {A} (ev1 ev2 : list event) (r : outcome A * Env * list event) :
  after ev1 (after ev2 r) = after (ev1 ++ ev2) r.
Proof. unfold after. cbn. now rewrite app_assoc. Qed.

Lemma bind_ret_l {A B} (a : A) (f : A -> M B) (e : Env) :
  bind (ret a) f e = f a e.
Proof. rewrite (bind_ret _ _ e e a []) by reflexivity. apply after_nil. Qed.

Lemma bind_lift_some {A B} (a : A) (f : A -> M B) (e : Env) :
  bind (lift (Some a)) f e = f a e.
Proof. rewrite (bind_ret _ _ e e a []) by reflexivity. apply after_nil. Qed.

Lemma bind_emit {B} (ev : event) (f : unit -> M B) (e : Env) :
  bind (emit ev) f e = after [ev] (f tt e).
Proof. now apply bind_ret. Qed.

Lemma bind_requests_send {B} (r : request) (f : response -> M B) (e e1 : Env)
    (resp : response) :
  http_send e r = (e1, Some resp) ->
  bind (requests_send r) f e = after [EvHttp r] (f resp e1).
Proof.
  intros H. apply bind_ret. unfold requests_send. now rewrite H.
Qed.

Lemma lift_ret_inv {A} (o : option A) (e e' : Env) (a : A) (evs : list event) :
  lift o e = (Ret a, e', evs) -> o = Some a /\ e' = e /\ evs = [].
Proof.
  unfold lift. destruct o; [|discriminate]. intros H. now injection H as -> -> <-.
Qed.

End Computations.

(** ** The membership condition *)

Lemma has_min_users_iff (self : ChannelReaper) (n : Z) :
  has_min_users self n = true <->
  min_members (settings self) = 0 \/ min_members (settings self) > n.
Proof.
  unfold has_min_users. rewrite orb_true_iff, Z.eqb_eq, Z.gtb_ltb, Z.ltb_lt. lia.
Qed.

(** What [is_channel_disused] returns, from what its three steps give. *)
Lemma is_channel_disused_eq `{RT : Runtime} (self : ChannelReaper)
    (channel : Channel) (cutoff : datetime) (e e1 : Env) (history : value)
    (evs : list event) (created_at last : datetime) :
  slack_api_http self recursion_limit "conversations.history"
    (req_payload (history_request self channel)) "GET" 0 false e
    = (Ret history, e1, evs) ->
  fromtimestamp_float (created channel) = Some created_at ->
  get_last_message_timestamp self history created_at = Some last ->
  is_channel_disused self channel cutoff e
  = (Ret ((last <=? cutoff) && has_min_users self (num_members channel)), e1, evs).
Proof.
  intros Hhttp Hcreated Hlast. unfold is_channel_disused.
  cbn [history_request req_payload app] in *.
  rewrite (bind_ret _ _ _ _ _ _ Hhttp), Hcreated, bind_lift_some, Hlast,
    bind_lift_some.
  unfold after, ret. cbn. now rewrite app_nil_r.
Qed.

(** What a return of [is_channel_disused] says about its verdict. *)
Lemma is_channel_disused_inv `{RT : Runtime} (self : ChannelReaper)
    (channel : Channel) (cutoff : datetime) (e e1 : Env) (disused : bool)
    (evs : list event) :
  is_channel_disused self channel cutoff e = (Ret disused, e1, evs) ->
  exists history created_at last,
    slack_api_http self recursion_limit "conversations.history"
      (req_payload (history_request self channel)) "GET" 0 false e
      = (Ret history, e1, evs) /\
    fromtimestamp_float (created channel) = Some created_at /\
    get_last_message_timestamp self history created_at = Some last /\
    disused = (last <=? cutoff) && has_min_users self (num_members channel).
Proof.
  unfold is_channel_disused. intros H.
  apply bind_ret_inv in H as (history & e2 & ev1 & ev2 & Hhttp & H & ->).
  apply bind_ret_inv in H as (created_at & e3 & ev3 & ev4 & Hc & H & ->).
  apply lift_ret_inv in Hc as (Hc & -> & ->).
  apply bind_ret_inv in H as (last & e4 & ev5 & ev6 & Hl & H & ->).
  apply lift_ret_inv in Hl as (Hl & -> & ->).
  unfold ret in H. injection H as <- <- <-.
  exists history, created_at, last. rewrite !app_nil_r in *. now repeat split.
Qed.

(** C1 (as the code has it). For a channel whose member count equals a
    nonzero minimum-members setting, the membership condition
    [has_min_users] is false: the comparison is strict, so the channel is
    protected by the minimum and [is_channel_disused] never returns true
    for it. *)
Theorem has_min_users_at_threshold `{RT : Runtime} (self : ChannelReaper)
    (channel : Channel) :
  min_members (settings self) <> 0 ->
  num_members channel = min_members (settings self) ->
  has_min_users self (num_members channel) = false /\
  forall cutoff e e1 disused evs,
    is_channel_disused self channel cutoff e = (Ret disused, e1, evs) ->
    disused = false.
Proof.
  intros Hnz Heq.
  assert (Hfalse : has_min_users self (num_members channel) = false).
  { destruct (has_min_users self (num_members channel)) eqn:Hm; [|reflexivity].
    apply has_min_users_iff in Hm. lia. }
  split; [exact Hfalse|].
  intros cutoff e e1 disused evs H.
  apply is_channel_disused_inv in H as (h & c & l & _ & _ & _ & ->).
  rewrite Hfalse. apply andb_false_r.
Qed.

Lemma has_min_users_at_threshold_witness :
  min_members (settings Sample.reaper) <> 0 /\
  num_members Sample.full_house = min_members (settings Sample.reaper) /\
  has_min_users Sample.reaper
    (num_members Sample.full_house) = false /\
  forall cutoff e e1 disused evs,
    is_channel_disused (RT := Sample.runtime) Sample.reaper Sample.full_house
      cutoff e = (Ret disused, e1, evs) ->
    disused = false.
Proof.
  split; [discriminate|]. split; [reflexivity|].
  apply (has_min_users_at_threshold (RT := Sample.runtime) Sample.reaper
           Sample.full_house);
    [discriminate | reflexivity].
Defined.

(** C1, as stated, fails: with a minimum of 5, a channel of exactly 5
    members does not satisfy the membership condition. *)
Lemma has_min_users_equal_count_not_true :
  min_members (settings Sample.reaper) <> 0 /\
  num_members Sample.full_house = min_members (settings Sample.reaper) /\
  has_min_users Sample.reaper
    (num_members Sample.full_house) <> true.
Proof.
  split; [discriminate|]. split; [reflexivity|]. vm_compute. discriminate.
Qed.

(** ** The whitelist *)

Lemma name_whitelisted_in (channel_name : string)
    (keywords : list string) (keyword : string) :
  In keyword keywords ->
  Str.contains (Str.strip_hash keyword) channel_name = true ->
  name_whitelisted channel_name keywords = true.
Proof.
  induction keywords as [|k rest IH]; intros Hin Hc; [contradiction|].
  cbn [name_whitelisted]. destruct Hin as [-> | Hin].
  - now rewrite Hc.
  - destruct (Str.contains (Str.strip_hash k) channel_name); [reflexivity|].
    now apply IH.
Qed.

(** C5. A channel whose purpose or topic contains the exemption marker is
    whitelisted, whatever its name and whatever the keyword list. *)
Theorem is_channel_whitelisted_marker (self : ChannelReaper)
    (channel : Channel) (white_listed_channels : list string) :
  is_substring (skip_channel_str (settings self)) (purpose channel) \/
  is_substring (skip_channel_str (settings self)) (topic channel) ->
  is_channel_whitelisted self channel white_listed_channels = true.
Proof.
  intros H. unfold is_channel_whitelisted.
  destruct H as [H | H]; apply contains_spec in H; rewrite H;
    [reflexivity | now rewrite orb_true_r].
Qed.

Lemma is_channel_whitelisted_marker_witness :
  (is_substring (skip_channel_str (settings Sample.reaper))
     (purpose Sample.keep_alive) \/
   is_substring (skip_channel_str (settings Sample.reaper))
     (topic Sample.keep_alive)) /\
  is_channel_whitelisted Sample.reaper Sample.keep_alive []
  = true.
Proof.
  assert (H : is_substring (skip_channel_str (settings Sample.reaper))
                (purpose Sample.keep_alive)).
  { exists "please ", " this". reflexivity. }
  split; [now left|].
  apply (is_channel_whitelisted_marker Sample.reaper
           Sample.keep_alive []).
  now left.
Defined.

(** C9. If some keyword of the list is empty once its ['#'] characters are
    stripped, every channel is whitelisted: the empty text occurs in every
    name. *)
Theorem is_channel_whitelisted_empty_keyword
    (self : ChannelReaper) (channel : Channel)
    (white_listed_channels : list string) (keyword : string) :
  In keyword white_listed_channels ->
  Str.strip_hash keyword = "" ->
  is_channel_whitelisted self channel white_listed_channels = true.
Proof.
  intros Hin Hempty. unfold is_channel_whitelisted.
  destruct (_ || _); [reflexivity|].
  apply name_whitelisted_in with (keyword := keyword); [exact Hin|].
  rewrite Hempty. apply contains_empty.
Qed.

Lemma is_channel_whitelisted_empty_keyword_witness :
  In "##" ["general"; "##"] /\
  Str.strip_hash "##" = "" /\
  is_channel_whitelisted Sample.reaper Sample.old_proj
    ["general"; "##"] = true.
Proof.
  split; [right; left; reflexivity|]. split; [reflexivity|].
  apply (is_channel_whitelisted_empty_keyword
           Sample.reaper Sample.old_proj
           ["general"; "##"] "##"); [right; left; reflexivity | reflexivity].
Defined.

(** A blank line of the whitelist file is such a keyword. *)
Lemma blank_line_strips_to_empty :
  Str.strip_hash (Str.strip (String "010"%char "")) = "".
Proof. reflexivity. Qed.

(** ** The whitelist keywords *)

Lemma get_whitelist_keywords_raises `{RT : Runtime} (self : ChannelReaper)
    (text : string) (e : Env) :
  whitelist_keywords (settings self) = Some text ->
  Str.truthy text = true ->
  get_whitelist_keywords self e = (Raise, e, []).
Proof.
  intros Hs Ht. unfold get_whitelist_keywords. now rewrite Hs, Ht.
Qed.

Lemma get_whitelist_keywords_file_only `{RT : Runtime} (self : ChannelReaper)
    (e : Env) :
  whitelist_keywords (settings self) = None ->
  get_whitelist_keywords self e =
    (Ret (map Str.strip (match whitelist_txt with Some l => l | None => [] end)),
     e, []).
Proof.
  intros Hs. unfold get_whitelist_keywords. now rewrite Hs.
Qed.

(** C4 on the code: with the setting ["ops,random"] the method does not
    return the union; adding the list to the [map] object raises, whatever
    the whitelist file holds. *)
Theorem get_whitelist_keywords_setting_raises :
  forall e : Sample.world,
    get_whitelist_keywords (RT := Sample.runtime) Sample.reaper_with_keywords e
    = (Raise, e, []).
Proof.
  intros e.
  apply (get_whitelist_keywords_raises (RT := Sample.runtime)
           Sample.reaper_with_keywords "ops,random");
    reflexivity.
Qed.

(** ** Archiving *)

(** C6. In a dry run [archive_channel] logs its intent and does nothing
    else: no request is sent and the outside world is as before. *)
Theorem archive_channel_dry_run `{RT : Runtime} (self : ChannelReaper)
    (channel : Channel) (alert : value) (e : Env) :
  dry_run (settings self) = true ->
  archive_channel self channel alert e
  = (Ret tt, e, [EvLogInfo ("Archiving channel... " ++ name channel)%string]).
Proof.
  intros Hdry. unfold archive_channel. now rewrite Hdry.
Qed.

Lemma archive_channel_dry_run_witness :
  dry_run (settings Sample.reaper) = true /\
  archive_channel (RT := Sample.runtime) Sample.reaper Sample.old_proj VNone
    (Sample.script, 100)
  = (Ret tt, (Sample.script, 100), [EvLogInfo "Archiving channel... old-proj"]).
Proof.
  split; [reflexivity|].
  apply (archive_channel_dry_run (RT := Sample.runtime) Sample.reaper
           Sample.old_proj VNone (Sample.script, 100)).
  reflexivity.
Defined.

(** ** The time of the last message *)

Section LastMessage.

Context `{RT : Runtime} (self : ChannelReaper).

Lemma scan_messages_all_skipped (messages : list value) (fallback : datetime) :
  Forall (skipped_message self) messages ->
  scan_messages self messages fallback = Some fallback.
Proof.
  induction 1 as [|message rest Hskip _ IH]; [reflexivity|].
  destruct Hskip as (fields & subtype & -> & Hsub & Hin).
  cbn [scan_messages py_in py_getitem]. rewrite Hsub. cbn [in_str_set].
  assert (Hex : existsb (String.eqb subtype) (skip_subtypes (settings self)) = true).
  { apply existsb_exists. exists subtype. split; [exact Hin|apply String.eqb_refl]. }
  now rewrite Hex.
Qed.

Lemma get_last_message_timestamp_falsy (history : value) (fallback : datetime) :
  truthy history = false ->
  get_last_message_timestamp self history fallback = Some epoch.
Proof. intros H. unfold get_last_message_timestamp. now rewrite H. Qed.

Lemma get_last_message_timestamp_no_messages (items : list (string * value))
    (fallback : datetime) :
  items <> [] ->
  lookup "messages" items = None ->
  get_last_message_timestamp self (VDict items) fallback = Some fallback.
Proof.
  intros Hne Hno. unfold get_last_message_timestamp.
  cbn [truthy py_in]. rewrite Hno. now destruct items.
Qed.

Lemma get_last_message_timestamp_all_skipped (items : list (string * value))
    (messages : list value) (fallback : datetime) :
  lookup "messages" items = Some (VList messages) ->
  Forall (skipped_message self) messages ->
  get_last_message_timestamp self (VDict items) fallback = Some fallback.
Proof.
  intros Hm Hall. unfold get_last_message_timestamp.
  cbn [truthy py_in py_getitem]. rewrite Hm. cbn [py_iter].
  rewrite (scan_messages_all_skipped _ _ Hall).
  destruct items; [discriminate|reflexivity].
Qed.

End LastMessage.

(** C2 (as the code has it). When the history response is absent or
    otherwise falsy (an empty mapping included), the last activity is the
    epoch. When it is a non-empty mapping without a ["messages"] key, the
    last activity is the fallback it was called with, which
    [is_channel_disused] sets to the creation time of the channel; the
    verdict then compares the creation time with the cutoff. *)
Theorem history_absent_or_without_messages `{RT : Runtime}
    (self : ChannelReaper) (history : value) :
  (truthy history = false ->
   (forall fallback,
      get_last_message_timestamp self history fallback = Some epoch) /\
   (forall channel cutoff e e1 evs created_at,
      slack_api_http self recursion_limit "conversations.history"
        (req_payload (history_request self channel)) "GET" 0 false e
        = (Ret history, e1, evs) ->
      fromtimestamp_float (created channel) = Some created_at ->
      is_channel_disused self channel cutoff e
      = (Ret ((epoch <=? cutoff) && has_min_users self (num_members channel)),
         e1, evs))) /\
  (forall items,
     history = VDict items -> items <> [] -> lookup "messages" items = None ->
     (forall fallback,
        get_last_message_timestamp self history fallback = Some fallback) /\
     (forall channel cutoff e e1 evs created_at,
        slack_api_http self recursion_limit "conversations.history"
          (req_payload (history_request self channel)) "GET" 0 false e
          = (Ret history, e1, evs) ->
        fromtimestamp_float (created channel) = Some created_at ->
        is_channel_disused self channel cutoff e
        = (Ret ((created_at <=? cutoff)
                && has_min_users self (num_members channel)), e1, evs))).
Proof.
  split.
  - intros Hfalsy. split.
    + intros fallback. now apply get_last_message_timestamp_falsy.
    + intros channel cutoff e e1 evs created_at Hhttp Hcreated.
      apply (is_channel_disused_eq self channel cutoff e e1 history evs
               created_at epoch Hhttp Hcreated).
      now apply get_last_message_timestamp_falsy.
  - intros items -> Hne Hno. split.
    + intros fallback. now apply get_last_message_timestamp_no_messages.
    + intros channel cutoff e e1 evs created_at Hhttp Hcreated.
      apply (is_channel_disused_eq self channel cutoff e e1 (VDict items) evs
               created_at created_at Hhttp Hcreated).
      now apply get_last_message_timestamp_no_messages.
Qed.

Lemma history_absent_or_without_messages_witness :
  (truthy VNone = false /\
   get_last_message_timestamp (RT := Sample.runtime) Sample.reaper VNone
     1000000000000000 = Some epoch) /\
  (VDict [("ok", VBool true)] = VDict [("ok", VBool true)] /\
   [("ok", VBool true)] <> [] /\
   lookup "messages" [("ok", VBool true)] = None /\
   get_last_message_timestamp (RT := Sample.runtime) Sample.reaper
     (VDict [("ok", VBool true)]) 1000000000000000 = Some 1000000000000000).
Proof.
  split.
  - split; [reflexivity|].
    apply (proj1 (history_absent_or_without_messages (RT := Sample.runtime)
                    Sample.reaper VNone)); reflexivity.
  - split; [reflexivity|]. split; [discriminate|]. split; [reflexivity|].
    apply (proj2 (history_absent_or_without_messages (RT := Sample.runtime)
                    Sample.reaper (VDict [("ok", VBool true)]))
             [("ok", VBool true)]); [reflexivity | discriminate | reflexivity].
Defined.

(** C2, as stated, fails on a mapping without ["messages"]: the response
    [{"ok": true}] does not resolve to the epoch but to the fallback, and a
    channel created after the cutoff is then not disused, although the epoch
    is before the cutoff and the channel has fewer members than the
    minimum. *)
Lemma history_without_messages_not_epoch :
  lookup "messages" [("ok", VBool true)] = None /\
  get_last_message_timestamp (RT := Sample.runtime) Sample.reaper
    (VDict [("ok", VBool true)]) 1000000000000000 <> Some epoch /\
  is_channel_disused (RT := Sample.runtime) Sample.reaper Sample.old_proj
    900000000000000 ([Sample.ok []], 100)
  = (Ret false, ([], 100), [EvHttp (history_request Sample.reaper Sample.old_proj)]) /\
  (epoch <=? 900000000000000)
  && has_min_users Sample.reaper (num_members Sample.old_proj) = true.
Proof.
  split; [reflexivity|]. split; [vm_compute; discriminate|].
  split; vm_compute; reflexivity.
Qed.

(** C10. When every message of the history carries a subtype of the skipped
    set (the list may be of any length), the last activity is the fallback,
    not the epoch; in [is_channel_disused] the fallback is the creation time
    of the channel, so the verdict is: created at or before the cutoff, and
    the membership condition. *)
Theorem history_all_skipped_uses_created `{RT : Runtime} (self : ChannelReaper)
    (items : list (string * value)) (messages : list value) :
  lookup "messages" items = Some (VList messages) ->
  Forall (skipped_message self) messages ->
  (forall fallback,
     get_last_message_timestamp self (VDict items) fallback = Some fallback) /\
  (forall channel cutoff e e1 evs created_at,
     slack_api_http self recursion_limit "conversations.history"
       (req_payload (history_request self channel)) "GET" 0 false e
       = (Ret (VDict items), e1, evs) ->
     fromtimestamp_float (created channel) = Some created_at ->
     is_channel_disused self channel cutoff e
     = (Ret ((created_at <=? cutoff)
             && has_min_users self (num_members channel)), e1, evs)).
Proof.
  intros Hm Hall. split.
  - intros fallback. now apply get_last_message_timestamp_all_skipped with messages.
  - intros channel cutoff e e1 evs created_at Hhttp Hcreated.
    apply (is_channel_disused_eq self channel cutoff e e1 (VDict items) evs
             created_at created_at Hhttp Hcreated).
    now apply get_last_message_timestamp_all_skipped with messages.
Qed.

Lemma history_all_skipped_uses_created_witness :
  lookup "messages" [("ok", VBool true); ("messages", VList [Sample.join_message])]
  = Some (VList [Sample.join_message]) /\
  Forall (skipped_message Sample.reaper) [Sample.join_message] /\
  get_last_message_timestamp (RT := Sample.runtime) Sample.reaper
    (VDict [("ok", VBool true); ("messages", VList [Sample.join_message])])
    1000000000000000 = Some 1000000000000000 /\
  is_channel_disused (RT := Sample.runtime) Sample.reaper Sample.old_proj
    1600000000000000
    ([Sample.ok [("messages", VList [Sample.join_message])]], 100)
  = (Ret ((1000000000000000 <=? 1600000000000000)
          && has_min_users Sample.reaper (num_members Sample.old_proj)),
     ([], 100), [EvHttp (history_request Sample.reaper Sample.old_proj)]).
Proof.
  assert (Hall : Forall (skipped_message Sample.reaper) [Sample.join_message]).
  { constructor; [|constructor].
    exists [("type", VStr "message"); ("subtype", VStr "channel_join");
            ("ts", VStr "1700000000")], "channel_join".
    split; [reflexivity|]. split; [reflexivity|]. right; left; reflexivity. }
  split; [reflexivity|]. split; [exact Hall|].
  pose proof (history_all_skipped_uses_created (RT := Sample.runtime)
                Sample.reaper
                [("ok", VBool true); ("messages", VList [Sample.join_message])]
                [Sample.join_message] eq_refl Hall) as [Hlast Hdisused].
  split; [apply Hlast|].
  apply Hdisused; reflexivity.
Defined.

(** ** The rate limit *)


(** C3 on the code: a message is posted as the bot, the first response is
    429 with [Retry-After: 2], the second is a success. The client sleeps 2
    seconds and sends the request once more, with the same endpoint, payload
    and method, and returns; but the second request carries the user token,
    not the bot token of the first. *)
Theorem retry_as_bot_sends_user_token :
  let payload :=
    [("channel", VStr "C01"); ("username", VStr "Auto Archiver");
     ("icon_emoji", VStr ":wave:"); ("text", VStr "bye")] in
  send_channel_message (RT := Sample.runtime) Sample.reaper "C01" "bye"
    ([Sample.too_many_requests "2"; Sample.ok []], 100)
  = (Ret tt, ([], 102),
     [EvHttp {| req_verb := POST;
                req_uri := "https://slack.com/api/chat.postMessage";
                req_payload := payload;
                req_authorization := "Bearer xoxb-bot" |};
      EvSleep 2;
      EvHttp {| req_verb := POST;
                req_uri := "https://slack.com/api/chat.postMessage";
                req_payload := payload;
                req_authorization := "Bearer xoxp-user" |}]).
Proof. vm_compute. reflexivity. Qed.

(** ** The loop of [main] *)

Section Orchestrator.

Context `{RT : Runtime} (self : ChannelReaper).

(** A call of [slack_api_http] without delay that returns has sent its
    request first. *)
Lemma slack_api_http_ret_sends (frames : nat) (api_endpoint : string)
    (payload : list (string * value)) (method : string) (as_bot : bool)
    (e e1 : Env) (result : value) (evs : list event) :
  slack_api_http self frames api_endpoint payload method 0 as_bot e
  = (Ret result, e1, evs) ->
  exists rest,
    evs =
      EvHttp
        {| req_verb := if String.eqb method "POST" then POST else GET;
           req_uri := ("https://slack.com/api/" ++ api_endpoint)%string;
           req_payload := payload;
           req_authorization :=
             ("Bearer " ++ (if as_bot then bot_slack_token (settings self)
                            else slack_token (settings self)))%string |}
        :: rest.
Proof.
  destruct frames as [|frames]; [discriminate|].
  cbn [slack_api_http].
  destruct (Qlt_le_dec 0 0) as [Hlt|_]; [now apply Qlt_irrefl in Hlt|].
  rewrite bind_ret_l. intros H.
  apply bind_ret_inv in H as (resp & e2 & ev1 & ev2 & Hsend & _ & ->).
  unfold requests_send in Hsend.
  destruct (http_send e _) as [e3 [r|]]; [|discriminate].
  injection Hsend as _ _ <-. now exists ev2.
Qed.

(** A return of [is_channel_disused] has asked for the history of the
    channel. *)
Lemma is_channel_disused_ret_asks (channel : Channel) (cutoff : datetime)
    (e e1 : Env) (disused : bool) (evs : list event) :
  is_channel_disused self channel cutoff e = (Ret disused, e1, evs) ->
  In (EvHttp (history_request self channel)) evs.
Proof.
  intros H. apply is_channel_disused_inv in H as (h & c & l & Hhttp & _).
  apply slack_api_http_ret_sends in Hhttp as [rest ->]. now left.
Qed.

(** One turn that returns: the disuse evaluation has run, then the channel
    was archived and recorded exactly when the decision says so. *)
Lemma main_loop_body_inv (whitelist : list string) (alert_templates : value)
    (archived : list Channel) (channel : Channel) (e e2 : Env)
    (archived' : list Channel) (evs : list event) :
  main_loop_body self whitelist alert_templates archived channel e
  = (Ret archived', e2, evs) ->
  exists disused e1 ev1 ev2,
    is_channel_disused self channel (too_old_datetime (settings self)) e
      = (Ret disused, e1, ev1) /\
    (if negb (is_channel_whitelisted self channel whitelist) && disused
     then exists alert,
            py_getitem alert_templates "channel_template" = Some alert /\
            archive_channel self channel alert e1 = (Ret tt, e2, ev2)
     else e2 = e1 /\ ev2 = []) /\
    archived' =
      (if negb (is_channel_whitelisted self channel whitelist) && disused
       then archived ++ [channel] else archived) /\
    evs = EvStdout "." :: ev1 ++ ev2.
Proof.
  unfold main_loop_body. intros H.
  apply bind_ret_inv in H as ([] & e0 & ev0 & ev & Hemit & H & ->).
  unfold emit in Hemit. injection Hemit as <- <-.
  apply bind_ret_inv in H as (disused & e1 & ev1 & ev2 & Hdis & H & ->).
  exists disused, e1, ev1, ev2. split; [exact Hdis|].
  destruct (negb (is_channel_whitelisted self channel whitelist) && disused).
  - apply bind_ret_inv in H as (alert & e3 & ev3 & ev4 & Hal & H & ->).
    apply lift_ret_inv in Hal as (Hal & -> & ->).
    apply bind_ret_inv in H as ([] & e4 & ev5 & ev6 & Harch & H & ->).
    unfold ret in H. injection H as <- <- <-.
    rewrite app_nil_r. cbn [app].
    split; [now exists alert|]. now split.
  - unfold ret in H. injection H as <- <- <-. now repeat split.
Qed.

Lemma main_loop_body_eq (whitelist : list string) (alert_templates : value)
    (archived : list Channel) (channel : Channel) (e e1 e2 : Env)
    (disused : bool) (ev1 ev2 : list event) :
  is_channel_disused self channel (too_old_datetime (settings self)) e
    = (Ret disused, e1, ev1) ->
  (if negb (is_channel_whitelisted self channel whitelist) && disused
   then exists alert,
          py_getitem alert_templates "channel_template" = Some alert /\
          archive_channel self channel alert e1 = (Ret tt, e2, ev2)
   else e2 = e1 /\ ev2 = []) ->
  main_loop_body self whitelist alert_templates archived channel e
  = (Ret (if negb (is_channel_whitelisted self channel whitelist) && disused
          then archived ++ [channel] else archived),
     e2, EvStdout "." :: ev1 ++ ev2).
Proof.
  intros Hdis Harch. unfold main_loop_body.
  rewrite bind_emit, (bind_ret _ _ _ _ _ _ Hdis).
  destruct (negb (is_channel_whitelisted self channel whitelist) && disused).
  - destruct Harch as (alert & Hal & Harch).
    rewrite Hal, bind_lift_some, (bind_ret _ _ _ _ _ _ Harch).
    unfold after, ret. cbn. now rewrite app_nil_r.
  - destruct Harch as [-> ->]. unfold after, ret. cbn. reflexivity.
Qed.

(** The loop returns exactly when every channel has its turn. *)
Lemma main_loop_turns (whitelist : list string) (alert_templates : value)
    (channels archived : list Channel) (e e' : Env) (archived' : list Channel)
    (evs : list event) :
  main_loop self whitelist alert_templates channels archived e
  = (Ret archived', e', evs) <->
  exists ts,
    turns self whitelist alert_templates channels e ts e' evs /\
    archived' = archived ++ archived_of ts.
Proof.
  split.
  - revert archived e evs.
    induction channels as [|channel rest IH]; intros archived e evs H.
    + unfold main_loop, ret in H. injection H as <- <- <-.
      exists []. split; [constructor | now rewrite app_nil_r].
    + cbn [main_loop] in H.
      apply bind_ret_inv in H as (a & e2 & evb & evr & Hbody & Hrest & ->).
      apply main_loop_body_inv in Hbody
        as (disused & e1 & ev1 & ev2 & Hdis & Harch & -> & ->).
      apply IH in Hrest as (ts & Hts & ->).
      exists ((channel,
               negb (is_channel_whitelisted self channel whitelist) && disused)
                :: ts).
      split.
      * cbn [app]. rewrite <- app_assoc.
        now apply turns_next with (e1 := e1) (e2 := e2).
      * unfold archived_of. cbn [filter snd].
        destruct (negb _ && disused); cbn [map fst]; [|reflexivity].
        now rewrite <- app_assoc.
  - intros (ts & Hts & ->). revert archived.
    induction Hts as [e | channel rest e e1 e2 e3 disused ev1 ev2 ev3 ts
                            Hdis Harch Hts IH]; intros archived.
    + unfold archived_of. cbn. now rewrite app_nil_r.
    + cbn [main_loop].
      rewrite (bind_ret _ _ _ _ _ _
                 (main_loop_body_eq whitelist alert_templates archived channel
                    e e1 e2 disused ev1 ev2 Hdis Harch)).
      rewrite IH. unfold after, archived_of. cbn [fst snd filter].
      destruct (negb (is_channel_whitelisted self channel whitelist) && disused);
        cbn [map fst app]; rewrite <- ?app_assoc; reflexivity.
Qed.

Lemma turns_channels (whitelist : list string) (alert_templates : value)
    (channels : list Channel) (e e' : Env) (ts : list (Channel * bool))
    (evs : list event) :
  turns self whitelist alert_templates channels e ts e' evs ->
  map fst ts = channels /\
  forall channel, In channel channels ->
    In (EvHttp (history_request self channel)) evs.
Proof.
  induction 1 as [e | channel rest e e1 e2 e3 disused ev1 ev2 ev3 ts
                      Hdis Harch Hts [IHm IHr]].
  - split; [reflexivity | intros c []].
  - split; [cbn; now rewrite IHm|].
    intros c [<- | Hin].
    + right. apply in_or_app. left. now apply is_channel_disused_ret_asks in Hdis.
    + right. apply in_or_app. right. apply in_or_app. right. now apply IHr.
Qed.

End Orchestrator.

Lemma get_whitelist_keywords_pure `{RT : Runtime} (self : ChannelReaper)
    (e e1 : Env) (keywords : list string) (evs : list event) :
  get_whitelist_keywords self e = (Ret keywords, e1, evs) -> e1 = e /\ evs = [].
Proof.
  unfold get_whitelist_keywords.
  destruct (whitelist_keywords (settings self)) as [text|].
  - destruct (Str.truthy text).
    + intros H. apply bind_ret_inv in H as (k & e2 & ev1 & ev2 & Hadd & H & ->).
      apply lift_ret_inv in Hadd as (_ & -> & ->).
      unfold ret in H. now injection H as _ <- <-.
    + unfold ret. intros H. now injection H as _ <- <-.
  - unfold ret. intros H. now injection H as _ <- <-.
Qed.

(** C7. A run of [main] that returns went as follows. Every listed channel
    had a turn, in the order of the listing; in each turn the whitelist
    verdict was taken and the disuse evaluation ran, whatever the whitelist
    verdict (the request for the history of every listed channel is among
    the events of the loop); the channel was archived, and recorded in the
    archived list, exactly when it was not whitelisted and was disused.
    After the last turn the admin report was sent, and after it the file
    report was written, with the names of the channels recorded. *)
Theorem main_orchestration `{RT : Runtime} (self : ChannelReaper) (e e' : Env)
    (evs : list event) :
  main self e = (Ret tt, e', evs) -> orchestrated self e e' evs.
Proof.
  unfold main. intros H.
  apply bind_ret_inv in H as ([] & ea & eva & ev & Hdry & H & ->).
  assert (Hpre : ea = e /\
                 eva = if dry_run (settings self)
                       then [EvLogInfo
                               "THIS IS A DRY RUN. NO CHANNELS ARE ACTUALLY ARCHIVED."]
                       else []).
  { destruct (dry_run (settings self)); unfold emit, ret in Hdry;
      now injection Hdry as <- <-. }
  destruct Hpre as [-> ->]. clear Hdry.
  apply bind_ret_inv in H as (whitelist & eb & evb & ev' & Hwl & H & ->).
  destruct (get_whitelist_keywords_pure self _ _ _ _ Hwl) as [-> ->].
  apply bind_ret_inv in H as (alert_templates & ec & evc & ev'' & Hal & H & ->).
  unfold get_channel_alerts in Hal. apply lift_ret_inv in Hal as (Hal & -> & ->).
  apply bind_ret_inv in H as (channels & e0 & ev0 & ev3 & Hlist & H & ->).
  apply bind_ret_inv in H as (archived & e1 & ev1 & ev4 & Hloop & H & ->).
  apply main_loop_turns in Hloop as (ts & Hts & ->).
  apply bind_ret_inv in H as ([] & e2 & ev2 & ev5 & Hadmin & H & ->).
  unfold generate_report in H.
  apply bind_ret_inv in H as (stamp & e3 & ev6 & ev7 & Hstamp & H & ->).
  unfold strftime_now in Hstamp. injection Hstamp as <- <- <-.
  unfold emit in H. injection H as <- <-.
  destruct (turns_channels self _ _ _ _ _ _ _ Hts) as [Hmap Hasked].
  exists whitelist, alert_templates, channels, e0, ev0, ts, e1, ev1, ev2.
  repeat (split; [assumption|]).
  reflexivity.
Qed.

Lemma main_orchestration_witness :
  let run := main (RT := Sample.runtime) Sample.reaper (Sample.script, 100) in
  run = (Ret tt, snd (fst run), snd run) /\
  orchestrated (RT := Sample.runtime) Sample.reaper (Sample.script, 100)
    (snd (fst run)) (snd run).
Proof.
  split; [vm_compute; reflexivity|].
  apply (main_orchestration (RT := Sample.runtime) Sample.reaper
           (Sample.script, 100)).
  vm_compute. reflexivity.
Defined.

(** The sample run archives the one channel that is old, small and not
    whitelisted. *)
Lemma sample_run_report :
  reports (snd (main (RT := Sample.runtime) Sample.reaper (Sample.script, 100)))
  = ["old-proj"].
Proof. vm_compute. reflexivity. Qed.

(** ** Two runs on the same upstream data *)

Section Determinism.

Context `{RT : Runtime} (self : ChannelReaper).
Context (R : Env -> Env -> Prop) (HR : same_upstream R).

Lemma sim_ret {A} (a : A) : simulates R (ret a).
Proof. intros e1 e2 H. now repeat split. Qed.

Lemma sim_lift {A} (o : option A) : simulates R (lift o).
Proof. intros e1 e2 H. unfold lift. destruct o; now repeat split. Qed.

Lemma sim_raise {A} : simulates R (raise (A := A)).
Proof. intros e1 e2 H. now repeat split. Qed.

Lemma sim_sys_exit {A} (code : Z) : simulates R (sys_exit (A := A) code).
Proof. intros e1 e2 H. now repeat split. Qed.

Lemma sim_emit (ev : event) : simulates R (emit ev).
Proof. intros e1 e2 H. now repeat split. Qed.

Lemma sim_time_sleep (seconds : Q) : simulates R (time_sleep seconds).
Proof.
  intros e1 e2 H. unfold time_sleep, agree. cbn.
  repeat split. now apply (proj2 HR).
Qed.

Lemma sim_requests_send (r : request) : simulates R (requests_send r).
Proof.
  intros e1 e2 H. unfold requests_send, agree.
  destruct (proj1 HR e1 e2 r H) as [Hresp Hnext].
  destruct (http_send e1 r) as [e1' resp1], (http_send e2 r) as [e2' resp2].
  cbn in Hresp, Hnext. subst resp2. destruct resp1; now repeat split.
Qed.

Lemma sim_bind {A B} (m : M A) (f : A -> M B) :
  simulates R m -> (forall a, simulates R (f a)) -> simulates R (bind m f).
Proof.
  intros Hm Hf e1 e2 H. unfold bind. specialize (Hm e1 e2 H).
  destruct (m e1) as [[o1 e1'] ev1], (m e2) as [[o2 e2'] ev2].
  destruct Hm as (Ho & Hnext & Hev). cbn in Ho, Hnext, Hev. subst o2.
  destruct o1 as [a| |code]; [|now repeat split..].
  specialize (Hf a e1' e2' Hnext).
  destruct (f a e1') as [[o1 e1''] ev1'], (f a e2') as [[o2 e2''] ev2'].
  destruct Hf as (Ho & Hnext' & Hev'). cbn in Ho, Hnext', Hev'. subst o2.
  repeat split; [exact Hnext'|]. cbn. now rewrite !map_app, Hev, Hev'.
Qed.

Ltac sim_step :=
  first
    [ apply sim_ret | apply sim_lift | apply sim_raise | apply sim_sys_exit
    | apply sim_emit | apply sim_time_sleep | apply sim_requests_send
    | apply sim_bind; [|intros ?]
    | match goal with
      | |- simulates _ (if ?b then _ else _) => destruct b
      | |- simulates _ (match ?o with Some _ => _ | None => _ end) => destruct o
      end ].

Lemma sim_slack_api_http (frames : nat) (api_endpoint : string)
    (payload : list (string * value)) (method : string) (retry_delay : Q)
    (as_bot : bool) :
  simulates R
    (slack_api_http self frames api_endpoint payload method retry_delay as_bot).
Proof.
  revert retry_delay as_bot.
  induction frames as [|frames IH]; intros retry_delay as_bot;
    cbn [slack_api_http]; [apply sim_raise|].
  repeat sim_step. apply IH.
Qed.

Lemma sim_get_whitelist_keywords : simulates R (get_whitelist_keywords self).
Proof. unfold get_whitelist_keywords. repeat sim_step. Qed.

Lemma sim_get_all_channels : simulates R (get_all_channels self).
Proof.
  unfold get_all_channels. apply sim_bind; [apply sim_slack_api_http|intros ?].
  repeat sim_step.
Qed.

Lemma sim_is_channel_disused (channel : Channel) (cutoff : datetime) :
  simulates R (is_channel_disused self channel cutoff).
Proof.
  unfold is_channel_disused.
  apply sim_bind; [apply sim_slack_api_http|intros ?]. repeat sim_step.
Qed.

Lemma sim_send_channel_message (channel_id message : string) :
  simulates R (send_channel_message self channel_id message).
Proof.
  unfold send_channel_message.
  apply sim_bind; [apply sim_slack_api_http|intros ?]. apply sim_ret.
Qed.

Lemma sim_archive_channel (channel : Channel) (alert : value) :
  simulates R (archive_channel self channel alert).
Proof.
  unfold archive_channel. apply sim_bind; [apply sim_emit|intros ?].
  destruct (negb (dry_run (settings self))); [|apply sim_ret].
  apply sim_bind; [apply sim_lift|intros ?].
  apply sim_bind; [apply sim_send_channel_message|intros ?].
  apply sim_bind; [apply sim_slack_api_http|intros ?]. apply sim_emit.
Qed.

Lemma sim_send_admin_report (channels : list Channel) :
  simulates R (send_admin_report self channels).
Proof.
  unfold send_admin_report.
  destruct (Str.truthy (admin_channel (settings self))); [|apply sim_ret].
  apply sim_send_channel_message.
Qed.

(** The file report: the name follows the clock, the content does not. *)
Lemma sim_generate_report (channels : list Channel) :
  simulates R (generate_report channels).
Proof. intros e1 e2 H. now repeat split. Qed.

Lemma sim_main_loop (whitelist : list string) (alert_templates : value)
    (channels archived : list Channel) :
  simulates R (main_loop self whitelist alert_templates channels archived).
Proof.
  revert archived. induction channels as [|channel rest IH]; intros archived;
    cbn [main_loop]; [apply sim_ret|].
  apply sim_bind; [|intros ?; apply IH].
  unfold main_loop_body. apply sim_bind; [apply sim_emit|intros ?].
  apply sim_bind; [apply sim_is_channel_disused|intros disused].
  destruct (negb (is_channel_whitelisted self channel whitelist) && disused);
    [|apply sim_ret].
  apply sim_bind; [apply sim_lift|intros ?].
  apply sim_bind; [apply sim_archive_channel|intros ?]. apply sim_ret.
Qed.

Lemma sim_main : simulates R (main self).
Proof.
  unfold main.
  apply sim_bind; [destruct (dry_run (settings self)); [apply sim_emit|apply sim_ret]|].
  intros _. apply sim_bind; [apply sim_get_whitelist_keywords|intros ?].
  apply sim_bind; [apply sim_lift|intros ?].
  apply sim_bind; [apply sim_get_all_channels|intros ?].
  apply sim_bind; [apply sim_main_loop|intros ?].
  apply sim_bind; [apply sim_send_admin_report|intros ?].
  apply sim_generate_report.
Qed.

End Determinism.

(** ** A dry run never calls the archive endpoint *)

Section DryRun.

Context `{RT : Runtime} (self : ChannelReaper).

Lemma quiet_ret {A} (a : A) : quiet (ret a).
Proof. intros e. reflexivity. Qed.

Lemma quiet_lift {A} (o : option A) : quiet (lift o).
Proof. intros e. unfold lift. now destruct o. Qed.

Lemma quiet_raise {A} : quiet (raise (A := A)).
Proof. intros e. reflexivity. Qed.

Lemma quiet_sys_exit {A} (code : Z) : quiet (sys_exit (A := A) code).
Proof. intros e. reflexivity. Qed.

Lemma quiet_emit (ev : event) : is_archive_request ev = false -> quiet (emit ev).
Proof. intros H e. unfold no_archive_request. cbn. now rewrite H. Qed.

Lemma quiet_time_sleep (seconds : Q) : quiet (time_sleep seconds).
Proof. intros e. reflexivity. Qed.

Lemma quiet_requests_send (r : request) :
  is_archive_request (EvHttp r) = false -> quiet (requests_send r).
Proof.
  intros H e. unfold requests_send, no_archive_request.
  destruct (http_send e r) as [e1 [resp|]]; cbn [snd forallb]; now rewrite H.
Qed.

Lemma quiet_bind {A B} (m : M A) (f : A -> M B) :
  quiet m -> (forall a, quiet (f a)) -> quiet (bind m f).
Proof.
  intros Hm Hf e. unfold bind. specialize (Hm e).
  destruct (m e) as [[[a| |code] e1] ev1]; [|exact Hm..].
  specialize (Hf a e1). destruct (f a e1) as [[o e2] ev2].
  unfold no_archive_request in *. cbn [snd] in *.
  now rewrite forallb_app, Hm, Hf.
Qed.

Ltac quiet_step :=
  first
    [ apply quiet_ret | apply quiet_lift | apply quiet_raise
    | apply quiet_sys_exit | apply quiet_time_sleep
    | apply quiet_emit; reflexivity
    | apply quiet_bind; [|intros ?]
    | match goal with
      | |- quiet (if ?b then _ else _) => destruct b
      | |- quiet (match ?o with Some _ => _ | None => _ end) => destruct o
      end ].

Lemma quiet_slack_api_http (frames : nat) (api_endpoint : string)
    (payload : list (string * value)) (method : string) (retry_delay : Q)
    (as_bot : bool) :
  String.eqb ("https://slack.com/api/" ++ api_endpoint)
    "https://slack.com/api/conversations.archive" = false ->
  quiet (slack_api_http self frames api_endpoint payload method retry_delay as_bot).
Proof.
  intros Hother. revert retry_delay as_bot.
  induction frames as [|frames IH]; intros retry_delay as_bot;
    cbn [slack_api_http]; [apply quiet_raise|].
  apply quiet_bind; [repeat quiet_step|intros _].
  apply quiet_bind; [apply quiet_requests_send; exact Hother|intros response].
  repeat quiet_step. apply IH.
Qed.

Lemma quiet_send_channel_message (channel_id message : string) :
  quiet (send_channel_message self channel_id message).
Proof.
  unfold send_channel_message.
  apply quiet_bind; [now apply quiet_slack_api_http|intros ?]. apply quiet_ret.
Qed.

Lemma quiet_is_channel_disused (channel : Channel) (cutoff : datetime) :
  quiet (is_channel_disused self channel cutoff).
Proof.
  unfold is_channel_disused.
  apply quiet_bind; [now apply quiet_slack_api_http|intros ?].
  repeat quiet_step.
Qed.

Lemma quiet_get_all_channels : quiet (get_all_channels self).
Proof.
  unfold get_all_channels.
  apply quiet_bind; [now apply quiet_slack_api_http|intros ?].
  repeat quiet_step.
Qed.

Lemma quiet_main_loop (whitelist : list string) (alert_templates : value)
    (channels archived : list Channel) :
  dry_run (settings self) = true ->
  quiet (main_loop self whitelist alert_templates channels archived).
Proof.
  intros Hdry. revert archived.
  induction channels as [|channel rest IH]; intros archived;
    cbn [main_loop]; [apply quiet_ret|].
  apply quiet_bind; [|intros ?; apply IH].
  unfold main_loop_body. apply quiet_bind; [now apply quiet_emit|intros ?].
  apply quiet_bind; [apply quiet_is_channel_disused|intros disused].
  destruct (negb (is_channel_whitelisted self channel whitelist) && disused);
    [|apply quiet_ret].
  apply quiet_bind; [apply quiet_lift|intros alert].
  apply quiet_bind; [|intros ?; apply quiet_ret].
  intros e. unfold archive_channel. now rewrite Hdry.
Qed.

Lemma quiet_main : dry_run (settings self) = true -> quiet (main self).
Proof.
  intros Hdry. unfold main. rewrite Hdry.
  apply quiet_bind; [now apply quiet_emit|intros _].
  apply quiet_bind; [unfold get_whitelist_keywords; repeat quiet_step|intros ?].
  apply quiet_bind; [apply quiet_lift|intros ?].
  apply quiet_bind; [apply quiet_get_all_channels|intros ?].
  apply quiet_bind; [now apply quiet_main_loop|intros ?].
  apply quiet_bind.
  - unfold send_admin_report.
    destruct (Str.truthy (admin_channel (settings self)));
      [apply quiet_send_channel_message|apply quiet_ret].
  - intros _ e. reflexivity.
Qed.

End DryRun.

Lemma reports_erase_name (evs : list event) :
  reports (map erase_name evs) = reports evs.
Proof.
  induction evs as [|ev rest IH]; [reflexivity|].
  destruct ev; cbn; now rewrite IH.
Qed.

(** C8. Two runs of the pipeline in dry-run mode, with the same settings,
    whitelist file and templates, started on upstream data that are the same
    (the clocks may differ), end the same way and write reports with the
    same content; and neither run calls the archive endpoint, so the first
    leaves the channels as the second needs them. *)
Theorem dry_run_reports_agree `{RT : Runtime} (self : ChannelReaper)
    (R : Env -> Env -> Prop) (e1 e2 : Env) :
  same_upstream R ->
  R e1 e2 ->
  dry_run (settings self) = true ->
  fst (fst (main self e1)) = fst (fst (main self e2)) /\
  reports (snd (main self e1)) = reports (snd (main self e2)) /\
  no_archive_request (snd (main self e1)) = true /\
  no_archive_request (snd (main self e2)) = true.
Proof.
  intros Hup Hrel Hdry.
  destruct (sim_main self R Hup e1 e2 Hrel) as (Hout & _ & Hevs).
  split; [exact Hout|]. split.
  - now rewrite <- (reports_erase_name (snd (main self e1))), Hevs,
      reports_erase_name.
  - split; now apply quiet_main.
Qed.

Lemma dry_run_reports_agree_witness :
  let R := fun a b : Sample.world => fst a = fst b in
  let run1 := main (RT := Sample.runtime) Sample.reaper (Sample.script, 100) in
  let run2 := main (RT := Sample.runtime) Sample.reaper (Sample.script, 86500) in
  same_upstream (RT := Sample.runtime) R /\
  R (Sample.script, 100) (Sample.script, 86500) /\
  dry_run (settings Sample.reaper) = true /\
  fst (fst run1) = fst (fst run2) /\
  reports (snd run1) = reports (snd run2) /\
  no_archive_request (snd run1) = true /\
  no_archive_request (snd run2) = true.
Proof.
  intros R run1 run2.
  assert (Hup : same_upstream (RT := Sample.runtime) R).
  { split.
    - intros [s1 c1] [s2 c2] r H. unfold R in *. cbn in H. subst s2.
      cbn. unfold Sample.send. cbn. now destruct s1.
    - intros [s1 c1] [s2 c2] seconds H. exact H. }
  split; [exact Hup|]. split; [reflexivity|]. split; [reflexivity|].
  apply (dry_run_reports_agree (RT := Sample.runtime) Sample.reaper R
           (Sample.script, 100) (Sample.script, 86500) Hup);
    reflexivity.
Defined.

(** In the sample the two runs write the same names under different file
    names. *)
Lemma sample_runs_differ_in_name_only :
  snd (main (RT := Sample.runtime) Sample.reaper (Sample.script, 100))
  <> snd (main (RT := Sample.runtime) Sample.reaper (Sample.script, 86500)) /\
  reports (snd (main (RT := Sample.runtime) Sample.reaper (Sample.script, 100)))
  = ["old-proj"] /\
  reports (snd (main (RT := Sample.runtime) Sample.reaper (Sample.script, 86500)))
  = ["old-proj"].
Proof.
  split; [|split; vm_compute; reflexivity].
  vm_compute. intros H. discriminate H.
Qed.

(** * Further properties of the methods *)

(** ** [slack_api_http]: one exchange *)

Section Exchange.

Context `{RT : Runtime} (self : ChannelReaper).

Lemma bind_lift_none {A B} (f : A -> M B) (e : Env) :
  bind (lift None) f e = (Raise, e, []).
Proof. reflexivity. Qed.

Lemma bind_requests_fail {B} (r : request) (f : response -> M B) (e e1 : Env) :
  http_send e r = (e1, None) ->
  bind (requests_send r) f e = (Raise, e1, [EvHttp r]).
Proof. intros H. unfold bind, requests_send. now rewrite H. Qed.

Lemma no_delay : forall A (x y : A), (if Qlt_le_dec 0 0 then x else y) = y.
Proof.
  intros A x y. destruct (Qlt_le_dec 0 0) as [Hlt|_]; [|reflexivity].
  now apply Qlt_irrefl in Hlt.
Qed.

(** A call without delay whose request is answered goes on with the
    handling of the response, after the request. *)
Ltac answered Hsend :=
  unfold api_request in Hsend; cbn [slack_api_http];
  rewrite no_delay, bind_ret_l, (bind_requests_send _ _ _ _ _ Hsend).

(** A 200 with a JSON object that is not a ["not_authed"] error and has an
    ["ok"]: the object when ["ok"] is true, [None] otherwise. *)
Lemma exchange_handled (frames : nat) (api_endpoint : string)
    (payload : list (string * value)) (method : string) (as_bot : bool)
    (e e1 : Env) (resp : response) (body : list (string * value)) (ok : value) :
  http_send e (api_request self api_endpoint payload method as_bot)
    = (e1, Some resp) ->
  status_code resp = 200 ->
  json resp = Some (VDict body) ->
  (forall err, lookup "error" body = Some err -> eq_str err "not_authed" = false) ->
  lookup "ok" body = Some ok ->
  slack_api_http self (S frames) api_endpoint payload method 0 as_bot e
  = (Ret (if truthy ok then VDict body else VNone), e1,
     [EvHttp (api_request self api_endpoint payload method as_bot)]).
Proof.
  intros Hsend Hstatus Hjson Herr Hok. answered Hsend.
  rewrite Hstatus. cbn [Z.eqb Pos.eqb].
  rewrite Hjson, bind_lift_some. cbn [py_in]. rewrite bind_lift_some.
  assert (Hno : (if match lookup "error" body with Some _ => true | None => false end
                 then err <- lift (py_getitem (VDict body) "error") ;;
                      ret (eq_str err "not_authed")
                 else ret false) e1 = (Ret false, e1, [])).
  { cbn [py_getitem]. destruct (lookup "error" body) as [err|] eqn:He;
      [|reflexivity].
    rewrite bind_lift_some. unfold ret. now rewrite (Herr err eq_refl). }
  rewrite (bind_ret _ _ e1 e1 false [] Hno), after_nil.
  cbn [py_getitem]. rewrite Hok, bind_lift_some.
  now destruct (truthy ok).
Qed.

(** A status that is neither 200 nor 429. *)
Lemma exchange_unhandled (frames : nat) (api_endpoint : string)
    (payload : list (string * value)) (method : string) (as_bot : bool)
    (e e1 : Env) (resp : response) :
  http_send e (api_request self api_endpoint payload method as_bot)
    = (e1, Some resp) ->
  status_code resp <> 200 ->
  status_code resp <> 429 ->
  slack_api_http self (S frames) api_endpoint payload method 0 as_bot e
  = (Ret VNone, e1,
     [EvHttp (api_request self api_endpoint payload method as_bot)]).
Proof.
  intros Hsend H200 H429. answered Hsend.
  apply Z.eqb_neq in H200, H429. now rewrite H200, H429.
Qed.

(** X1. A success: status 200, a JSON object whose ["error"], if any, is not
    ["not_authed"], and a true ["ok"]. The object is returned after one
    request. *)
Theorem slack_api_http_success (frames : nat) (api_endpoint : string)
    (payload : list (string * value)) (method : string) (as_bot : bool)
    (e e1 : Env) (resp : response) (body : list (string * value)) (ok : value) :
  http_send e (api_request self api_endpoint payload method as_bot)
    = (e1, Some resp) ->
  status_code resp = 200 ->
  json resp = Some (VDict body) ->
  (forall err, lookup "error" body = Some err -> eq_str err "not_authed" = false) ->
  lookup "ok" body = Some ok ->
  truthy ok = true ->
  slack_api_http self (S frames) api_endpoint payload method 0 as_bot e
  = (Ret (VDict body), e1,
     [EvHttp (api_request self api_endpoint payload method as_bot)]).
Proof.
  intros Hsend Hstatus Hjson Herr Hok Htrue.
  rewrite (exchange_handled frames api_endpoint payload method as_bot e e1 resp
             body ok Hsend Hstatus Hjson Herr Hok).
  now rewrite Htrue.
Qed.

(** The ["not_authed"] error of a 200. *)
Lemma exchange_not_authed (frames : nat) (api_endpoint : string)
    (payload : list (string * value)) (method : string) (as_bot : bool)
    (e e1 : Env) (resp : response) (body : list (string * value)) :
  http_send e (api_request self api_endpoint payload method as_bot)
    = (e1, Some resp) ->
  status_code resp = 200 ->
  json resp = Some (VDict body) ->
  lookup "error" body = Some (VStr "not_authed") ->
  slack_api_http self (S frames) api_endpoint payload method 0 as_bot e
  = (Exit 1, e1,
     [EvHttp (api_request self api_endpoint payload method as_bot);
      EvLogError not_authed_line]).
Proof.
  intros Hsend Hstatus Hjson Herr. answered Hsend.
  rewrite Hstatus. cbn [Z.eqb Pos.eqb].
  rewrite Hjson, bind_lift_some. cbn [py_in]. rewrite Herr, bind_lift_some.
  rewrite (bind_ret _ _ e1 e1 true []).
  - rewrite after_nil. reflexivity.
  - cbn [py_getitem]. now rewrite Herr, bind_lift_some.
Qed.

(** X2. ["not_authed"]: the error line is logged and the process ends with
    code 1, whatever ["ok"] says and whoever called. *)
Theorem slack_api_http_not_authed (frames : nat) (api_endpoint : string)
    (payload : list (string * value)) (method : string) (as_bot : bool)
    (e e1 : Env) (resp : response) (body : list (string * value)) :
  http_send e (api_request self api_endpoint payload method as_bot)
    = (e1, Some resp) ->
  status_code resp = 200 ->
  json resp = Some (VDict body) ->
  lookup "error" body = Some (VStr "not_authed") ->
  slack_api_http self (S frames) api_endpoint payload method 0 as_bot e
  = (Exit 1, e1,
     [EvHttp (api_request self api_endpoint payload method as_bot);
      EvLogError not_authed_line]).
Proof.
  intros Hsend Hstatus Hjson Herr.
  now apply exchange_not_authed with resp body.
Qed.

(** X3. A status that is neither 200 nor 429: [None] is returned after one
    request, and the body is not looked at. *)
Theorem slack_api_http_other_status (frames : nat) (api_endpoint : string)
    (payload : list (string * value)) (method : string) (as_bot : bool)
    (e e1 : Env) (resp : response) :
  http_send e (api_request self api_endpoint payload method as_bot)
    = (e1, Some resp) ->
  other_status resp ->
  slack_api_http self (S frames) api_endpoint payload method 0 as_bot e
  = (Ret VNone, e1,
     [EvHttp (api_request self api_endpoint payload method as_bot)]).
Proof.
  intros Hsend [H200 H429]. now apply exchange_unhandled with resp.
Qed.

(** X4. A refusal: status 200 and a JSON object with a false ["ok"] and an
    error other than ["not_authed"]. [None] is returned, nothing is logged
    and nothing is raised. *)
Theorem slack_api_http_refused (frames : nat) (api_endpoint : string)
    (payload : list (string * value)) (method : string) (as_bot : bool)
    (e e1 : Env) (resp : response) (body : list (string * value)) (ok : value) :
  http_send e (api_request self api_endpoint payload method as_bot)
    = (e1, Some resp) ->
  status_code resp = 200 ->
  json resp = Some (VDict body) ->
  (forall err, lookup "error" body = Some err -> eq_str err "not_authed" = false) ->
  lookup "ok" body = Some ok ->
  truthy ok = false ->
  slack_api_http self (S frames) api_endpoint payload method 0 as_bot e
  = (Ret VNone, e1,
     [EvHttp (api_request self api_endpoint payload method as_bot)]).
Proof.
  intros Hsend Hstatus Hjson Herr Hok Hfalse.
  rewrite (exchange_handled frames api_endpoint payload method as_bot e e1 resp
             body ok Hsend Hstatus Hjson Herr Hok).
  now rewrite Hfalse.
Qed.

(** X5. What raises: no response; a 200 whose body is not JSON; a 200 whose
    JSON object has no ["error"] and no ["ok"]; a 429 without a usable
    [Retry-After]. One request was sent. *)
Theorem slack_api_http_raises (frames : nat) (api_endpoint : string)
    (payload : list (string * value)) (method : string) (as_bot : bool)
    (e e1 : Env) (answer : option response) :
  http_send e (api_request self api_endpoint payload method as_bot)
    = (e1, answer) ->
  answer = None \/
  (exists resp, answer = Some resp /\ status_code resp = 200 /\
     (json resp = None \/
      exists body, json resp = Some (VDict body) /\
        lookup "error" body = None /\ lookup "ok" body = None)) \/
  (exists resp, answer = Some resp /\ status_code resp = 429 /\
     (retry_after resp = None \/
      exists header, retry_after resp = Some header /\
        py_float (VStr header) = None)) ->
  slack_api_http self (S frames) api_endpoint payload method 0 as_bot e
  = (Raise, e1, [EvHttp (api_request self api_endpoint payload method as_bot)]).
Proof.
  intros Hsend [-> | [(resp & -> & Hstatus & Hbody) | (resp & -> & Hstatus & Hh)]].
  - unfold api_request in Hsend. cbn [slack_api_http].
    now rewrite no_delay, bind_ret_l, (bind_requests_fail _ _ _ _ Hsend).
  - answered Hsend. rewrite Hstatus. cbn [Z.eqb Pos.eqb].
    destruct Hbody as [Hjson | (body & Hjson & Herr & Hok)]; rewrite Hjson.
    + now rewrite bind_lift_none.
    + rewrite bind_lift_some. cbn [py_in py_getitem].
      now rewrite Herr, bind_lift_some, bind_ret_l, Hok, bind_lift_none.
  - answered Hsend. rewrite Hstatus. cbn [Z.eqb Pos.eqb].
    destruct Hh as [Hh | (header & Hh & Hfloat)]; rewrite Hh.
    + now rewrite bind_lift_none.
    + now rewrite bind_lift_some, Hfloat, bind_lift_none.
Qed.

End Exchange.

Lemma slack_api_http_success_witness :
  let env := ([Sample.ok [("channels", VList [])]], 100) in
  let body := [("ok", VBool true); ("channels", VList [])] in
  http_send (Runtime := Sample.runtime) env
    (api_request Sample.reaper "conversations.list" [] "GET" false)
  = (([], 100), Some (Sample.ok [("channels", VList [])])) /\
  slack_api_http (RT := Sample.runtime) Sample.reaper 1 "conversations.list" []
    "GET" 0 false env
  = (Ret (VDict body), ([], 100),
     [EvHttp (api_request Sample.reaper "conversations.list" [] "GET" false)]).
Proof.
  intros env body. split; [reflexivity|].
  apply (slack_api_http_success (RT := Sample.runtime) Sample.reaper 0
           "conversations.list" [] "GET" false env ([], 100)
           (Sample.ok [("channels", VList [])]) body (VBool true));
    try reflexivity.
  intros err H. discriminate H.
Defined.

Lemma slack_api_http_not_authed_witness :
  let env := ([Cases.refusal "not_authed"], 100) in
  http_send (Runtime := Sample.runtime) env
    (api_request Sample.reaper "conversations.list" [] "GET" false)
  = (([], 100), Some (Cases.refusal "not_authed")) /\
  slack_api_http (RT := Sample.runtime) Sample.reaper 1 "conversations.list" []
    "GET" 0 false env
  = (Exit 1, ([], 100),
     [EvHttp (api_request Sample.reaper "conversations.list" [] "GET" false);
      EvLogError not_authed_line]).
Proof.
  intros env. split; [reflexivity|].
  apply (slack_api_http_not_authed (RT := Sample.runtime) Sample.reaper 0
           "conversations.list" [] "GET" false env ([], 100)
           (Cases.refusal "not_authed")
           [("ok", VBool false); ("error", VStr "not_authed")]);
    reflexivity.
Defined.

Lemma slack_api_http_other_status_witness :
  let env := ([Cases.failure 500], 100) in
  http_send (Runtime := Sample.runtime) env
    (api_request Sample.reaper "conversations.list" [] "GET" false)
  = (([], 100), Some (Cases.failure 500)) /\
  other_status (Cases.failure 500) /\
  slack_api_http (RT := Sample.runtime) Sample.reaper 1 "conversations.list" []
    "GET" 0 false env
  = (Ret VNone, ([], 100),
     [EvHttp (api_request Sample.reaper "conversations.list" [] "GET" false)]).
Proof.
  intros env. split; [reflexivity|].
  assert (H : other_status (Cases.failure 500)) by (split; discriminate).
  split; [exact H|].
  now apply (slack_api_http_other_status (RT := Sample.runtime) Sample.reaper 0
               "conversations.list" [] "GET" false env ([], 100)
               (Cases.failure 500)).
Defined.

Lemma slack_api_http_refused_witness :
  let env := ([Cases.refusal "channel_not_found"], 100) in
  http_send (Runtime := Sample.runtime) env
    (api_request Sample.reaper "conversations.history" [] "GET" false)
  = (([], 100), Some (Cases.refusal "channel_not_found")) /\
  slack_api_http (RT := Sample.runtime) Sample.reaper 1 "conversations.history"
    [] "GET" 0 false env
  = (Ret VNone, ([], 100),
     [EvHttp (api_request Sample.reaper "conversations.history" [] "GET" false)]).
Proof.
  intros env. split; [reflexivity|].
  apply (slack_api_http_refused (RT := Sample.runtime) Sample.reaper 0
           "conversations.history" [] "GET" false env ([], 100)
           (Cases.refusal "channel_not_found")
           [("ok", VBool false); ("error", VStr "channel_not_found")]
           (VBool false));
    try reflexivity.
  intros err H. injection H as <-. reflexivity.
Defined.

Lemma slack_api_http_raises_witness :
  let env := ([Sample.too_many_requests "soon"], 100) in
  http_send (Runtime := Sample.runtime) env
    (api_request Sample.reaper "conversations.list" [] "GET" false)
  = (([], 100), Some (Sample.too_many_requests "soon")) /\
  py_float (Runtime := Sample.runtime) (VStr "soon") = None /\
  slack_api_http (RT := Sample.runtime) Sample.reaper 1 "conversations.list" []
    "GET" 0 false env
  = (Raise, ([], 100),
     [EvHttp (api_request Sample.reaper "conversations.list" [] "GET" false)]).
Proof.
  intros env. split; [reflexivity|]. split; [reflexivity|].
  apply (slack_api_http_raises (RT := Sample.runtime) Sample.reaper 0
           "conversations.list" [] "GET" false env ([], 100)
           (Some (Sample.too_many_requests "soon")) eq_refl).
  right. right. exists (Sample.too_many_requests "soon").
  split; [reflexivity|]. split; [reflexivity|].
  right. exists "soon". split; reflexivity.
Defined.


(** ** [slack_api_http]: delays and retries *)

Section Retries.

Context `{RT : Runtime} (self : ChannelReaper).



Lemma snd_bind {A B} (m : M A) (f : A -> M B) (e : Env) :
  snd (bind m f e)
  = snd (m e)
    ++ match fst (fst (m e)) with
       | Ret a => snd (f a (snd (fst (m e))))
       | _ => []
       end.
Proof.
  unfold bind. destruct (m e) as [[[a| |code] e1] ev1]; cbn;
    [|now rewrite app_nil_r..].
  now destruct (f a e1) as [[o e2] ev2].
Qed.

Lemma fst_bind {A B} (m : M A) (f : A -> M B) (e : Env) :
  fst (fst (bind m f e))
  = match fst (fst (m e)) with
    | Ret a => fst (fst (f a (snd (fst (m e)))))
    | Raise => Raise
    | Exit code => Exit code
    end.
Proof.
  unfold bind. destruct (m e) as [[[a| |code] e1] ev1]; cbn; [|reflexivity..].
  now destruct (f a e1) as [[o e2] ev2].
Qed.











End Retries.



(** ** Stripping, and the keywords of the whitelist *)

Section Stripping.

Variable p : ascii -> bool.

Lemma rstrip_idempotent (s : string) : Str.rstrip p (Str.rstrip p s) = Str.rstrip p s.
Proof.
  induction s as [|c s IH]; [reflexivity|]. cbn [Str.rstrip].
  destruct (Str.rstrip p s) as [|a r] eqn:Hr.
  - destruct (p c) eqn:Hc; [reflexivity|]. cbn [Str.rstrip]. now rewrite Hc.
  - cbn [Str.rstrip]. cbn [Str.rstrip] in IH. now rewrite IH.
Qed.

Lemma lstrip_idempotent (s : string) : Str.lstrip p (Str.lstrip p s) = Str.lstrip p s.
Proof.
  induction s as [|c s IH]; [reflexivity|]. cbn [Str.lstrip].
  destruct (p c) eqn:Hc; [exact IH|]. cbn [Str.lstrip]. now rewrite Hc.
Qed.

(** Stripping the right end keeps a left end that is already stripped. *)
Lemma lstrip_rstrip (s : string) :
  Str.lstrip p s = s -> Str.lstrip p (Str.rstrip p s) = Str.rstrip p s.
Proof.
  destruct s as [|c s]; [reflexivity|]. cbn [Str.lstrip Str.rstrip].
  destruct (p c) eqn:Hc.
  - intros H. exfalso.
    assert (Hlen : forall t, (String.length (Str.lstrip p t) <= String.length t)%nat).
    { induction t as [|a t IHt]; [apply le_n|]. cbn [Str.lstrip].
      destruct (p a); cbn [String.length]; [now apply le_S | apply le_n]. }
    specialize (Hlen s). rewrite H in Hlen. cbn [String.length] in Hlen. lia.
  - intros _. destruct (Str.rstrip p s); cbn [Str.lstrip]; now rewrite Hc.
Qed.

Lemma strip_with_trimmed (s : string) : trimmed p (Str.strip_with p s).
Proof.
  unfold trimmed, Str.strip_with. split.
  - apply lstrip_rstrip, lstrip_idempotent.
  - apply rstrip_idempotent.
Qed.

Lemma rstrip_snoc (s : string) (c : ascii) :
  p c = true ->
  Str.rstrip p (s ++ String c EmptyString)%string = Str.rstrip p s.
Proof.
  intros Hc. induction s as [|a s IH]; cbn [append Str.rstrip].
  - now rewrite Hc.
  - now rewrite IH.
Qed.

Lemma strip_with_snoc (s : string) (c : ascii) :
  p c = true ->
  Str.strip_with p (s ++ String c EmptyString)%string = Str.strip_with p s.
Proof.
  intros Hc. unfold Str.strip_with.
  induction s as [|a s IH]; cbn [append Str.lstrip].
  - now rewrite Hc.
  - destruct (p a); [exact IH|].
    change (String a (s ++ String c EmptyString))%string
      with (String a s ++ String c EmptyString)%string.
    now apply rstrip_snoc.
Qed.

Lemma strip_with_cons (s : string) (c : ascii) :
  p c = true -> Str.strip_with p (String c s) = Str.strip_with p s.
Proof. intros Hc. unfold Str.strip_with. cbn [Str.lstrip]. now rewrite Hc. Qed.

End Stripping.

Lemma name_whitelisted_iff (channel_name : string) (keywords : list string) :
  name_whitelisted channel_name keywords = true <->
  exists keyword,
    In keyword keywords /\ is_substring (Str.strip_hash keyword) channel_name.
Proof.
  induction keywords as [|k rest IH]; cbn [name_whitelisted].
  - split; [discriminate | intros (k & [] & _)].
  - destruct (Str.contains (Str.strip_hash k) channel_name) eqn:Hc.
    + split; [intros _ | reflexivity].
      exists k. split; [now left | now apply contains_spec].
    + rewrite IH. split.
      * intros (k' & Hin & Hsub). exists k'. split; [now right | exact Hsub].
      * intros (k' & [<- | Hin] & Hsub).
        -- apply contains_spec in Hsub. congruence.
        -- now exists k'.
Qed.

(** X9. [is_channel_whitelisted] is true exactly when the marker occurs in the
    purpose or in the topic, or some keyword, its ['#'] stripped, occurs in
    the name. In particular it is false on an empty keyword list for a
    channel without the marker. *)
Theorem is_channel_whitelisted_iff (self : ChannelReaper) (channel : Channel)
    (white_listed_channels : list string) :
  is_channel_whitelisted self channel white_listed_channels = true <->
  is_substring (skip_channel_str (settings self)) (purpose channel) \/
  is_substring (skip_channel_str (settings self)) (topic channel) \/
  exists keyword,
    In keyword white_listed_channels /\
    is_substring (Str.strip_hash keyword) (name channel).
Proof.
  unfold is_channel_whitelisted. rewrite <- !contains_spec, <- name_whitelisted_iff.
  destruct (Str.contains _ (purpose channel)), (Str.contains _ (topic channel));
    cbn [orb]; intuition congruence.
Qed.

(** X10. An empty exemption marker exempts every channel. *)
Theorem is_channel_whitelisted_empty_marker (self : ChannelReaper)
    (channel : Channel) (white_listed_channels : list string) :
  skip_channel_str (settings self) = "" ->
  is_channel_whitelisted self channel white_listed_channels = true.
Proof.
  intros H. unfold is_channel_whitelisted. now rewrite H, contains_empty.
Qed.

Lemma is_channel_whitelisted_empty_marker_witness :
  let self :=
    {| settings := {|
         slack_token := ""; bot_slack_token := ""; dry_run := true;
         min_members := 0; days_inactive := 60; too_old_datetime := 0;
         admin_channel := ""; skip_subtypes := []; skip_channel_str := "";
         whitelist_keywords := None |} |} in
  skip_channel_str (settings self) = "" /\
  is_channel_whitelisted self Sample.old_proj [] = true.
Proof.
  intros self. split; [reflexivity|].
  now apply (is_channel_whitelisted_empty_marker self Sample.old_proj []).
Defined.

(** X11. A keyword with ['#'] before it or after it exempts the same channels
    as the keyword without: the ['#'] are stripped at both ends. *)
Theorem is_channel_whitelisted_hash (self : ChannelReaper) (channel : Channel)
    (keyword : string) (rest : list string) :
  is_channel_whitelisted self channel (String "#" keyword :: rest)
  = is_channel_whitelisted self channel (keyword :: rest) /\
  is_channel_whitelisted self channel ((keyword ++ "#")%string :: rest)
  = is_channel_whitelisted self channel (keyword :: rest).
Proof.
  unfold is_channel_whitelisted, Str.strip_hash. cbn [name_whitelisted].
  unfold Str.strip_hash.
  rewrite strip_with_cons by reflexivity.
  rewrite strip_with_snoc by reflexivity. now split.
Qed.

(** X12. Without a whitelist-keywords setting, or with an empty one, the
    keywords are the lines of the whitelist file, one keyword per line
    (none when there is no file), each stripped of white space at both
    ends; nothing else happens. *)
Theorem get_whitelist_keywords_from_file `{RT : Runtime} (self : ChannelReaper)
    (e : Env) :
  whitelist_keywords (settings self) = None \/
  whitelist_keywords (settings self) = Some "" ->
  let lines := match whitelist_txt with Some l => l | None => [] end in
  exists keywords,
    get_whitelist_keywords self e = (Ret keywords, e, []) /\
    List.length keywords = List.length lines /\
    Forall2 (fun line keyword => keyword = Str.strip line) lines keywords /\
    Forall (trimmed Str.isspace) keywords.
Proof.
  intros Hs lines. exists (map Str.strip lines).
  split; [|split; [|split]].
  - unfold get_whitelist_keywords. now destruct Hs as [-> | ->].
  - apply length_map.
  - induction lines; constructor; [reflexivity|assumption].
  - apply Forall_forall. intros k Hin.
    apply in_map_iff in Hin as (line & <- & _). apply strip_with_trimmed.
Qed.

Lemma get_whitelist_keywords_from_file_witness :
  (whitelist_keywords (settings Sample.reaper) = None \/
   whitelist_keywords (settings Sample.reaper) = Some "") /\
  exists keywords,
    get_whitelist_keywords (RT := Sample.runtime) Sample.reaper ([], 100)
    = (Ret keywords, ([], 100), []) /\
    List.length keywords = 2%nat /\
    Forall2 (fun line keyword => keyword = Str.strip line)
      ["general" ++ String "010"%char ""; "#ops " ++ String "010"%char ""]%string
      keywords /\
    Forall (trimmed Str.isspace) keywords.
Proof.
  split; [now left|].
  apply (get_whitelist_keywords_from_file (RT := Sample.runtime) Sample.reaper
           ([], 100)).
  now left.
Defined.

(** ** The first message that counts *)

Section FirstMessage.

Context `{RT : Runtime} (self : ChannelReaper).

Lemma scan_messages_skip (skipped rest : list value) (fallback : datetime) :
  Forall (skipped_message self) skipped ->
  scan_messages self (skipped ++ rest) fallback
  = scan_messages self rest fallback.
Proof.
  induction 1 as [|message more Hskip _ IH]; [reflexivity|].
  destruct Hskip as (fields & subtype & -> & Hsub & Hin).
  cbn [app scan_messages py_in py_getitem]. rewrite Hsub. cbn [in_str_set].
  assert (Hex : existsb (String.eqb subtype) (skip_subtypes (settings self)) = true).
  { apply existsb_exists. exists subtype. split; [exact Hin|apply String.eqb_refl]. }
  now rewrite Hex.
Qed.

(** A message that counts: a JSON object without subtype, or with a
    subtype that is not in the skipped set. *)
Lemma scan_messages_counted (fields : list (string * value)) (rest : list value)
    (fallback : datetime) :
  lookup "subtype" fields = None \/
  (exists subtype, lookup "subtype" fields = Some subtype /\
     in_str_set subtype (skip_subtypes (settings self)) = Some false) ->
  scan_messages self (VDict fields :: rest) fallback
  = match lookup "ts" fields with
    | Some ts => fromtimestamp_float ts
    | None => None
    end.
Proof.
  intros [Hnone | (subtype & Hsub & Hnot)];
    cbn [scan_messages py_in py_getitem].
  - now rewrite Hnone.
  - now rewrite Hsub, Hnot.
Qed.

(** X13. The history is read up to the first message that counts: the messages
    before it are skipped, its time is the answer, and what comes after it,
    well formed or not, is not looked at. *)
Theorem get_last_message_timestamp_first_counted
    (items fields : list (string * value)) (skipped rest : list value)
    (ts : value) (sent_at fallback : datetime) :
  lookup "messages" items = Some (VList (skipped ++ VDict fields :: rest)) ->
  Forall (skipped_message self) skipped ->
  lookup "subtype" fields = None \/
  (exists subtype, lookup "subtype" fields = Some subtype /\
     in_str_set subtype (skip_subtypes (settings self)) = Some false) ->
  lookup "ts" fields = Some ts ->
  fromtimestamp_float ts = Some sent_at ->
  get_last_message_timestamp self (VDict items) fallback = Some sent_at.
Proof.
  intros Hm Hskip Hcounted Hts Htime. unfold get_last_message_timestamp.
  cbn [truthy py_in py_getitem]. rewrite Hm. cbn [py_iter].
  rewrite (scan_messages_skip _ _ _ Hskip),
    (scan_messages_counted _ _ _ Hcounted), Hts, Htime.
  destruct items; [discriminate|reflexivity].
Qed.


(** X15. When the history request is answered with a status that is neither 200
    nor 429 (a server error, say), or is refused with an error other than
    ["not_authed"], the channel counts as last active at the epoch: the
    verdict is the membership condition, provided the cutoff is not before
    the epoch. *)
Theorem is_channel_disused_failed_history (channel : Channel) (cutoff : datetime)
    (frames : nat) (e e1 : Env) (resp : response) (created_at : datetime) :
  recursion_limit = S frames ->
  http_send e (history_request self channel) = (e1, Some resp) ->
  other_status resp \/
  (status_code resp = 200 /\
   exists body ok,
     json resp = Some (VDict body) /\
     (forall err, lookup "error" body = Some err ->
        eq_str err "not_authed" = false) /\
     lookup "ok" body = Some ok /\ truthy ok = false) ->
  fromtimestamp_float (created channel) = Some created_at ->
  is_channel_disused self channel cutoff e
  = (Ret ((epoch <=? cutoff) && has_min_users self (num_members channel)), e1,
     [EvHttp (history_request self channel)]).
Proof.
  intros Hlimit Hsend Hresp Hcreated.
  apply (is_channel_disused_eq self channel cutoff e e1 VNone
           [EvHttp (history_request self channel)] created_at epoch);
    [|exact Hcreated|reflexivity].
  rewrite Hlimit.
  destruct Hresp as [[H200 H429] | (H200 & body & ok & Hj & Herr & Hok & Hfalse)].
  - now apply (exchange_unhandled self frames "conversations.history" _ "GET"
                 false e e1 resp).
  - pose proof (exchange_handled self frames "conversations.history"
                  (req_payload (history_request self channel)) "GET" false
                  e e1 resp body ok Hsend H200 Hj Herr Hok) as Hnone.
    rewrite Hfalse in Hnone. exact Hnone.
Qed.

(** X16. The verdict grows with the cutoff and shrinks with the member count:
    from the same state of the world, a channel disused for a cutoff is
    disused for every later cutoff, and a channel with no more members and
    otherwise the same is disused too. *)
Theorem is_channel_disused_monotone (channel smaller : Channel)
    (cutoff later : datetime) (e e1 : Env) (evs : list event) :
  is_channel_disused self channel cutoff e = (Ret true, e1, evs) ->
  cutoff <= later ->
  id smaller = id channel ->
  created smaller = created channel ->
  num_members smaller <= num_members channel ->
  is_channel_disused self smaller later e = (Ret true, e1, evs).
Proof.
  intros H Hlater Hid Hcreated Hfewer.
  apply is_channel_disused_inv in H
    as (history & created_at & last & Hhttp & Hc & Hlast & Htrue).
  symmetry in Htrue. apply andb_true_iff in Htrue as [Hold Hmin].
  apply Z.leb_le in Hold. apply has_min_users_iff in Hmin.
  assert (Hreq : req_payload (history_request self smaller)
                 = req_payload (history_request self channel)).
  { unfold history_request. cbn [req_payload]. now rewrite Hid. }
  rewrite <- Hreq in Hhttp. rewrite <- Hcreated in Hc.
  rewrite (is_channel_disused_eq self smaller later e e1 history evs created_at
             last Hhttp Hc Hlast).
  assert (Hold' : (last <=? later) = true) by (apply Z.leb_le; lia).
  assert (Hmin' : has_min_users self (num_members smaller) = true)
    by (apply has_min_users_iff; lia).
  now rewrite Hold', Hmin'.
Qed.

End FirstMessage.

Lemma get_last_message_timestamp_first_counted_witness :
  let later := [Cases.plain_message "1700000000"; VInt 7] in
  let items :=
    [("ok", VBool true);
     ("messages", VList ([Sample.join_message] ++ later))] in
  Forall (skipped_message Sample.reaper) [Sample.join_message] /\
  get_last_message_timestamp (RT := Sample.runtime) Sample.reaper (VDict items)
    1000000000000000 = Some 1700000000000000.
Proof.
  intros later items.
  assert (Hall : Forall (skipped_message Sample.reaper) [Sample.join_message]).
  { constructor; [|constructor].
    exists [("type", VStr "message"); ("subtype", VStr "channel_join");
            ("ts", VStr "1700000000")], "channel_join".
    split; [reflexivity|]. split; [reflexivity|]. right; left; reflexivity. }
  split; [exact Hall|].
  apply (get_last_message_timestamp_first_counted (RT := Sample.runtime)
           Sample.reaper items
           [("type", VStr "message"); ("ts", VStr "1700000000")]
           [Sample.join_message] [VInt 7] (VStr "1700000000")
           1700000000000000 1000000000000000 eq_refl Hall (or_introl eq_refl)
           eq_refl eq_refl).
Defined.


Lemma is_channel_disused_failed_history_witness :
  recursion_limit (Runtime := Sample.runtime) = 990%nat /\
  other_status (Cases.failure 500) /\
  is_channel_disused (RT := Sample.runtime) Sample.reaper Sample.old_proj
    1600000000000000 ([Cases.failure 500], 100)
  = (Ret ((epoch <=? 1600000000000000)
          && has_min_users Sample.reaper (num_members Sample.old_proj)),
     ([], 100), [EvHttp (history_request Sample.reaper Sample.old_proj)]).
Proof.
  assert (H : other_status (Cases.failure 500)) by (split; discriminate).
  split; [reflexivity|]. split; [exact H|].
  apply (is_channel_disused_failed_history (RT := Sample.runtime) Sample.reaper
           Sample.old_proj 1600000000000000 989 ([Cases.failure 500], 100)
           ([], 100) (Cases.failure 500) 1000000000000000 eq_refl eq_refl
           (or_introl H) eq_refl).
Defined.

Lemma is_channel_disused_monotone_witness :
  let env := ([Sample.ok [("messages", VList [])]], 100) in
  let after_it := ([], 100) : Sample.world in
  let evs := [EvHttp (history_request Sample.reaper Sample.old_proj)] in
  is_channel_disused (RT := Sample.runtime) Sample.reaper Sample.old_proj
    1600000000000000 env = (Ret true, after_it, evs) /\
  1600000000000000 <= 1700000000000000 /\
  is_channel_disused (RT := Sample.runtime) Sample.reaper Sample.old_proj
    1700000000000000 env = (Ret true, after_it, evs).
Proof.
  intros env after_it evs. split; [reflexivity|]. split; [lia|].
  apply (is_channel_disused_monotone (RT := Sample.runtime) Sample.reaper
           Sample.old_proj Sample.old_proj 1600000000000000 1700000000000000
           env after_it evs eq_refl);
    [lia | reflexivity | reflexivity | lia].
Defined.

(** ** Archiving for real *)

Section Live.

Context `{RT : Runtime} (self : ChannelReaper).

Lemma exchange_declined (frames : nat) (api_endpoint : string)
    (payload : list (string * value)) (method : string) (as_bot : bool)
    (e e1 : Env) (resp : response) :
  http_send e (api_request self api_endpoint payload method as_bot)
    = (e1, Some resp) ->
  declined resp ->
  slack_api_http self (S frames) api_endpoint payload method 0 as_bot e
  = (Ret VNone, e1,
     [EvHttp (api_request self api_endpoint payload method as_bot)]).
Proof.
  intros Hsend [[H200 H429] | (H200 & body & ok & Hj & Herr & Hok & Hfalse)].
  - now apply exchange_unhandled with resp.
  - pose proof (exchange_handled self frames api_endpoint payload method as_bot
                  e e1 resp body ok Hsend H200 Hj Herr Hok) as Hnone.
    now rewrite Hfalse in Hnone.
Qed.


(** X18. In a live run nothing is archived when the alert cannot be delivered:
    if the template is not a text that formats, [archive_channel] raises
    after its first log line; if the post gets no response, it raises after
    the post. No call to the archive endpoint is made. *)
Theorem archive_channel_alert_failure (frames : nat) (channel : Channel)
    (alert : value) (e : Env) :
  dry_run (settings self) = false ->
  recursion_limit = S frames ->
  (format_alert self alert = None ->
   archive_channel self channel alert e
   = (Raise, e, [EvLogInfo ("Archiving channel... " ++ name channel)%string])) /\
  (forall message e1,
     format_alert self alert = Some message ->
     http_send e (message_request self (id channel) message) = (e1, None) ->
     archive_channel self channel alert e
     = (Raise, e1,
        [EvLogInfo ("Archiving channel... " ++ name channel)%string;
         EvHttp (message_request self (id channel) message)])).
Proof.
  intros Hlive Hlimit. split.
  - intros Hformat. unfold archive_channel.
    now rewrite bind_emit, Hlive, Hformat.
  - intros message e1 Hformat Hpost. unfold archive_channel.
    rewrite bind_emit, Hlive. cbn [negb]. rewrite Hformat, bind_lift_some.
    unfold send_channel_message at 1. rewrite Hlimit.
    unfold message_request, api_request in Hpost.
    unfold bind at 1 2. cbn [slack_api_http]. rewrite no_delay, bind_ret_l.
    now rewrite (bind_requests_fail _ _ _ _ Hpost).
Qed.

End Live.


Lemma archive_channel_alert_failure_witness :
  dry_run (settings Cases.live) = false /\
  format_alert (RT := Sample.runtime) Cases.live (VInt 3) = None /\
  archive_channel (RT := Sample.runtime) Cases.live Sample.old_proj (VInt 3)
    ([], 100)
  = (Raise, ([], 100), [EvLogInfo "Archiving channel... old-proj"]) /\
  archive_channel (RT := Sample.runtime) Cases.live Sample.old_proj
    (VStr "bye") ([], 100)
  = (Raise, ([], 100),
     [EvLogInfo "Archiving channel... old-proj";
      EvHttp (message_request Cases.live "C01" "bye")]).
Proof.
  pose proof (archive_channel_alert_failure (RT := Sample.runtime) Cases.live 989
                Sample.old_proj (VInt 3) ([], 100) eq_refl eq_refl) as [Hf _].
  pose proof (archive_channel_alert_failure (RT := Sample.runtime) Cases.live 989
                Sample.old_proj (VStr "bye") ([], 100) eq_refl eq_refl) as [_ Hp].
  split; [reflexivity|]. split; [reflexivity|]. split.
  - apply Hf. reflexivity.
  - apply (Hp "bye" ([], 100)); reflexivity.
Defined.

(** ** What the events of a run can be *)

Section Events.

Context `{RT : Runtime} (self : ChannelReaper).
Variable P : event -> Prop.

Lemma always_ret {A} (a : A) : always P (ret a).
Proof. intros e. constructor. Qed.

Lemma always_lift {A} (o : option A) : always P (lift o).
Proof. intros e. unfold lift. destruct o; constructor. Qed.

Lemma always_raise {A} : always P (raise (A := A)).
Proof. intros e. constructor. Qed.

Lemma always_sys_exit {A} (code : Z) : always P (sys_exit (A := A) code).
Proof. intros e. constructor. Qed.

Lemma always_emit (ev : event) : P ev -> always P (emit ev).
Proof. intros H e. now repeat constructor. Qed.

Lemma always_time_sleep (seconds : Q) :
  P (EvSleep seconds) -> always P (time_sleep seconds).
Proof. intros H e. now repeat constructor. Qed.

Lemma always_requests_send (r : request) :
  P (EvHttp r) -> always P (requests_send r).
Proof.
  intros H e. unfold requests_send.
  destruct (http_send e r) as [e1 [resp|]]; now repeat constructor.
Qed.

Lemma always_bind {A B} (m : M A) (f : A -> M B) :
  always P m -> (forall a, always P (f a)) -> always P (bind m f).
Proof.
  intros Hm Hf e. rewrite snd_bind. apply Forall_app. split; [apply Hm|].
  destruct (fst (fst (m e))); [apply Hf|constructor..].
Qed.

Ltac always_step :=
  first
    [ apply always_ret | apply always_lift | apply always_raise
    | apply always_sys_exit
    | apply always_emit; assumption
    | apply always_time_sleep; auto
    | apply always_requests_send; assumption
    | apply always_bind; [|intros ?]
    | match goal with
      | |- always _ (if ?b then _ else _) => destruct b
      end ].

(** The events of a call of [slack_api_http]: sleeps, the error line, the
    request of the caller and the same request with the user token. *)
Lemma always_slack_api_http (frames : nat) (api_endpoint : string)
    (payload : list (string * value)) (method : string) (retry_delay : Q)
    (as_bot : bool) :
  (forall seconds, P (EvSleep seconds)) ->
  P (EvLogError not_authed_line) ->
  P (EvHttp (api_request self api_endpoint payload method as_bot)) ->
  P (EvHttp (api_request self api_endpoint payload method false)) ->
  always P
    (slack_api_http self frames api_endpoint payload method retry_delay as_bot).
Proof.
  intros Hsleep Hlog. revert retry_delay as_bot.
  induction frames as [|frames IH]; intros retry_delay as_bot Hfirst Hretry;
    cbn [slack_api_http]; [apply always_raise|].
  unfold api_request, not_authed_line in *.
  repeat always_step. now apply IH.
Qed.

End Events.

Section Safety.

Context `{RT : Runtime} (self : ChannelReaper).

Lemma harmless_other_request (allowed : list Channel) (r : request) :
  is_archive_request (EvHttp r) = false -> harmless self allowed (EvHttp r).
Proof. intros H Harch. congruence. Qed.

Lemma harmless_more (allowed more : list Channel) (evs : list event) :
  incl allowed more ->
  Forall (harmless self allowed) evs -> Forall (harmless self more) evs.
Proof.
  intros Hincl. apply Forall_impl. intros [ | r | | | | ]; cbn; auto.
  intros H Harch. destruct (H Harch) as (c & Hin & ->). exists c. auto.
Qed.

Lemma harmless_reports (allowed : list Channel) (evs : list event) :
  Forall (harmless self allowed) evs -> reports evs = [].
Proof.
  induction 1 as [|ev rest Hev _ IH]; [reflexivity|].
  destruct ev; cbn in *; [assumption..|contradiction].
Qed.

Lemma harmless_slack_api_http (allowed : list Channel) (frames : nat)
    (api_endpoint : string) (payload : list (string * value)) (method : string)
    (as_bot : bool) :
  String.eqb ("https://slack.com/api/" ++ api_endpoint)
    "https://slack.com/api/conversations.archive" = false ->
  always (harmless self allowed)
    (slack_api_http self frames api_endpoint payload method 0 as_bot).
Proof.
  intros Hother.
  apply always_slack_api_http;
    [intros seconds; exact I | exact I
    | apply harmless_other_request; exact Hother
    | apply harmless_other_request; exact Hother].
Qed.

Lemma harmless_is_channel_disused (allowed : list Channel) (channel : Channel)
    (cutoff : datetime) :
  always (harmless self allowed) (is_channel_disused self channel cutoff).
Proof.
  unfold is_channel_disused.
  apply always_bind; [now apply harmless_slack_api_http|intros ?].
  apply always_bind; [apply always_lift|intros ?].
  apply always_bind; [apply always_lift|intros ?]. apply always_ret.
Qed.

Lemma harmless_send_channel_message (allowed : list Channel)
    (channel_id message : string) :
  always (harmless self allowed) (send_channel_message self channel_id message).
Proof.
  unfold send_channel_message.
  apply always_bind; [now apply harmless_slack_api_http|intros ?].
  apply always_ret.
Qed.

Lemma harmless_archive_channel (channel : Channel) (alert : value) :
  always (harmless self [channel]) (archive_channel self channel alert).
Proof.
  unfold archive_channel.
  apply always_bind; [now apply always_emit|intros ?].
  destruct (negb (dry_run (settings self))); [|apply always_ret].
  apply always_bind; [apply always_lift|intros ?].
  apply always_bind; [apply harmless_send_channel_message|intros ?].
  apply always_bind; [|intros ?; now apply always_emit].
  apply always_slack_api_http; cbn; auto; intros _; exists channel;
    (split; [now left|reflexivity]).
Qed.

Lemma harmless_get_all_channels (allowed : list Channel) :
  always (harmless self allowed) (get_all_channels self).
Proof.
  unfold get_all_channels.
  apply always_bind; [now apply harmless_slack_api_http|intros ?].
  apply always_bind; [apply always_lift|intros ?].
  apply always_bind; [apply always_lift|intros ?]. apply always_lift.
Qed.

Lemma harmless_send_admin_report (allowed channels : list Channel) :
  always (harmless self allowed) (send_admin_report self channels).
Proof.
  unfold send_admin_report.
  destruct (Str.truthy (admin_channel (settings self)));
    [apply harmless_send_channel_message|apply always_ret].
Qed.

(** The turns: what was archived was listed, was not whitelisted and has
    the membership condition; the events hold no file and no archive call
    but for the channels archived; in a live run each of them has its
    archive call. *)
Lemma turns_safe (whitelist : list string) (alert_templates : value)
    (channels : list Channel) (e e' : Env) (ts : list (Channel * bool))
    (evs : list event) :
  turns self whitelist alert_templates channels e ts e' evs ->
  (forall channel, In channel (archived_of ts) ->
     In channel channels /\
     is_channel_whitelisted self channel whitelist = false /\
     has_min_users self (num_members channel) = true) /\
  Forall (harmless self (archived_of ts)) evs /\
  (dry_run (settings self) = false ->
   forall channel, In channel (archived_of ts) ->
     In (EvHttp (archive_request self channel)) evs).
Proof.
  induction 1 as [e | channel rest e e1 e2 e3 disused ev1 ev2 ev3 ts
                      Hdis Harch Hts (IHin & IHev & IHlive)].
  - split; [intros c []|]. split; [constructor | intros _ c []].
  - pose proof (harmless_is_channel_disused (archived_of ts) channel
                  (too_old_datetime (settings self)) e) as Hev1.
    rewrite Hdis in Hev1. cbn [snd] in Hev1.
    unfold archived_of in *. cbn [filter snd].
    destruct (negb (is_channel_whitelisted self channel whitelist) && disused)
      eqn:Hgo.
    + destruct Harch as (alert & Hal & Harch).
      apply andb_true_iff in Hgo as [Hwl Hd]. apply negb_true_iff in Hwl.
      subst disused.
      apply is_channel_disused_inv in Hdis as (h & c & l & Hhttp & _ & _ & Hv).
      symmetry in Hv. apply andb_true_iff in Hv as [_ Hmin].
      pose proof (harmless_archive_channel channel alert e1) as Hev2.
      rewrite Harch in Hev2. cbn [snd] in Hev2. cbn [map fst].
      split; [|split].
      * intros c' [<- | Hin]; [split; [now left|now split]|].
        destruct (IHin c' Hin) as (Hl & Hrest). split; [now right|exact Hrest].
      * constructor; [exact I|]. apply Forall_app. split; [|apply Forall_app; split].
        -- apply harmless_more with (allowed := map fst (filter snd ts));
             [intros x Hx; now right|exact Hev1].
        -- apply harmless_more with (allowed := [channel]);
             [intros x [<-|[]]; now left|exact Hev2].
        -- apply harmless_more with (allowed := map fst (filter snd ts));
             [intros x Hx; now right|exact IHev].
      * intros Hlive c' [<- | Hin].
        -- right. apply in_or_app. right. apply in_or_app. left.
           unfold archive_channel in Harch. rewrite bind_emit in Harch.
           rewrite Hlive in Harch. cbn [negb] in Harch.
           unfold after in Harch. injection Harch as Ho He Hev. subst ev2.
           right.
           destruct (bind _ _ e1) as [[o e4] ev4] eqn:Hb. cbn [fst snd] in *.
           subst o. apply bind_ret_inv in Hb as (msg & e5 & ev5 & ev6 & _ & Hb & ->).
           apply bind_ret_inv in Hb as ([] & e6 & ev7 & ev8 & _ & Hb & ->).
           apply bind_ret_inv in Hb as (v & e7 & ev9 & ev10 & Hcall & _ & ->).
           apply slack_api_http_ret_sends in Hcall as [more ->].
           apply in_or_app. right. apply in_or_app. right. now left.
        -- right. apply in_or_app. right. apply in_or_app. right.
           now apply IHlive.
    + destruct Harch as [-> ->]. split; [|split].
      * intros c' Hin. destruct (IHin c' Hin) as (Hl & Hrest).
        split; [now right|exact Hrest].
      * constructor; [exact I|]. apply Forall_app. split; [exact Hev1|].
        now apply Forall_app.
      * intros Hlive c' Hin. right. apply in_or_app. right.
        now apply IHlive.
Qed.

End Safety.

(** ** Whole runs *)

Section Runs.

Context `{RT : Runtime} (self : ChannelReaper).

(** The log line that opens a dry run *)
Let opening : list event :=
  if dry_run (settings self)
  then [EvLogInfo "THIS IS A DRY RUN. NO CHANNELS ARE ACTUALLY ARCHIVED."]
  else [].

Lemma reports_app (ev1 ev2 : list event) :
  reports (ev1 ++ ev2) = reports ev1 ++ reports ev2.
Proof.
  induction ev1 as [|ev rest IH]; [reflexivity|].
  destruct ev; cbn; now rewrite IH.
Qed.

Lemma main_start (e : Env) :
  main self e
  = after opening
      ((whitelist_keywords <- get_whitelist_keywords self ;;
        alert_templates <- get_channel_alerts ;;
        channels <- get_all_channels self ;;
        archived_channels <-
          main_loop self whitelist_keywords alert_templates channels [] ;;
        send_admin_report self archived_channels ;;
        generate_report archived_channels) e).
Proof.
  unfold main, opening. destruct (dry_run (settings self)).
  - now rewrite bind_emit.
  - now rewrite bind_ret_l, after_nil.
Qed.

(** A run that returns, taken apart. *)
Lemma main_ret_inv (e e' : Env) (evs : list event) :
  main self e = (Ret tt, e', evs) ->
  exists whitelist alert_templates channels e0 ev0 ts e1 ev1 ev2,
    get_whitelist_keywords self e = (Ret whitelist, e, []) /\
    get_all_channels self e = (Ret channels, e0, ev0) /\
    turns self whitelist alert_templates channels e0 ts e1 ev1 /\
    send_admin_report self (archived_of ts) e1 = (Ret tt, e', ev2) /\
    evs = (opening ++ ev0 ++ ev1 ++ ev2)
          ++ [EvWriteFile ("report-" ++ now_stamp e' ++ ".txt")%string
                (report_content (archived_of ts))] /\
    Forall (harmless self (archived_of ts)) (opening ++ ev0 ++ ev1 ++ ev2).
Proof.
  rewrite main_start. unfold after.
  destruct (bind _ _ e) as [[o e9] ev9] eqn:H. cbn [fst snd].
  intros Heq. injection Heq as -> -> <-.
  apply bind_ret_inv in H as (whitelist & eb & evb & ev' & Hwl & H & ->).
  destruct (get_whitelist_keywords_pure self _ _ _ _ Hwl) as [-> ->].
  apply bind_ret_inv in H as (alert_templates & ec & evc & ev'' & Hal & H & ->).
  unfold get_channel_alerts in Hal. apply lift_ret_inv in Hal as (_ & -> & ->).
  apply bind_ret_inv in H as (channels & e0 & ev0 & ev3 & Hlist & H & ->).
  apply bind_ret_inv in H as (archived & e1 & ev1 & ev4 & Hloop & H & ->).
  apply main_loop_turns in Hloop as (ts & Hts & ->). cbn [app] in H.
  apply bind_ret_inv in H as ([] & e2 & ev2 & ev5 & Hadmin & H & ->).
  unfold generate_report in H.
  apply bind_ret_inv in H as (stamp & e3 & ev6 & ev7 & Hstamp & H & ->).
  unfold strftime_now in Hstamp. injection Hstamp as <- <- <-.
  unfold emit in H. injection H as <- <-.
  exists whitelist, alert_templates, channels, e0, ev0, ts, e1, ev1, ev2.
  repeat (split; [assumption|]). split.
  - cbn [app]. now rewrite <- !app_assoc.
  - destruct (turns_safe self _ _ _ _ _ _ _ Hts) as (_ & Hev1 & _).
    pose proof (harmless_get_all_channels self (archived_of ts) e) as Hev0.
    rewrite Hlist in Hev0. cbn [snd] in Hev0.
    pose proof (harmless_send_admin_report self (archived_of ts)
                  (archived_of ts) e1) as Hev2.
    rewrite Hadmin in Hev2. cbn [snd] in Hev2.
    assert (Hopen : Forall (harmless self (archived_of ts)) opening).
    { unfold opening. destruct (dry_run (settings self)); repeat constructor. }
    repeat (apply Forall_app; split); assumption.
Qed.

Lemma main_ret_reports (evs : list event) (allowed archived : list Channel)
    (file_name : string) :
  Forall (harmless self allowed) evs ->
  reports (evs ++ [EvWriteFile file_name (report_content archived)])
  = [report_content archived].
Proof.
  intros H. now rewrite reports_app, (harmless_reports self _ _ H).
Qed.

(** X19. A run fails before any request when the whitelist-keywords setting is
    not empty or when the templates cannot be loaded, dry run or not: only
    the opening line of a dry run is logged, no channel is listed and no
    report is written. *)
Theorem main_fails_before_listing (e : Env) :
  (exists text, whitelist_keywords (settings self) = Some text /\
     Str.truthy text = true) \/
  templates_json = None ->
  main self e
  = (Raise, e,
     if dry_run (settings self)
     then [EvLogInfo "THIS IS A DRY RUN. NO CHANNELS ARE ACTUALLY ARCHIVED."]
     else []).
Proof.
  intros H. rewrite main_start. fold opening. unfold bind at 1.
  assert (Hend : after opening (Raise (A := unit), e, []) = (Raise, e, opening)).
  { unfold after. cbn. now rewrite app_nil_r. }
  destruct H as [(text & Hs & Ht) | Hnone].
  - now rewrite (get_whitelist_keywords_raises self text e Hs Ht).
  - destruct (get_whitelist_keywords self e) as [[[k| |code] e1] ev1] eqn:Hk.
    + destruct (get_whitelist_keywords_pure self _ _ _ _ Hk) as [-> ->].
      unfold get_channel_alerts. now rewrite Hnone, bind_lift_none.
    + unfold get_whitelist_keywords in Hk.
      destruct (whitelist_keywords (settings self)) as [text|];
        [destruct (Str.truthy text)|]; try discriminate.
      cbn in Hk. now injection Hk as <- <-.
    + unfold get_whitelist_keywords in Hk.
      destruct (whitelist_keywords (settings self)) as [text|];
        [destruct (Str.truthy text)|]; discriminate.
Qed.

(** X20. A ["not_authed"] answer to the listing ends the process with code 1
    after the error line: no channel is examined and no report is
    written. *)
Theorem main_not_authed (frames : nat) (e e1 : Env) (resp : response)
    (body : list (string * value)) (alert_templates : value) :
  whitelist_keywords (settings self) = None \/
  whitelist_keywords (settings self) = Some "" ->
  templates_json = Some alert_templates ->
  recursion_limit = S frames ->
  http_send e (listing_request self) = (e1, Some resp) ->
  status_code resp = 200 ->
  json resp = Some (VDict body) ->
  lookup "error" body = Some (VStr "not_authed") ->
  main self e
  = (Exit 1, e1,
     (if dry_run (settings self)
      then [EvLogInfo "THIS IS A DRY RUN. NO CHANNELS ARE ACTUALLY ARCHIVED."]
      else [])
     ++ [EvHttp (listing_request self); EvLogError not_authed_line]).
Proof.
  intros Hs Htemplates Hlimit Hsend Hstatus Hjson Herr.
  rewrite main_start. fold opening.
  assert (Hk : exists k, get_whitelist_keywords self e = (Ret k, e, [])).
  { unfold get_whitelist_keywords. destruct Hs as [-> | ->]; eexists; reflexivity. }
  destruct Hk as [k Hk].
  rewrite (bind_ret _ _ _ _ _ _ Hk), after_nil.
  unfold get_channel_alerts. rewrite Htemplates, bind_lift_some.
  unfold get_all_channels. rewrite Hlimit.
  pose proof (exchange_not_authed self frames "conversations.list"
                [("exclude_archived", VInt 1); ("limit", VInt 1000)] "GET"
                false e e1 resp body Hsend Hstatus Hjson Herr) as Hexit.
  unfold bind at 1 2. rewrite Hexit. reflexivity.
Qed.

(** X21. A run that returns wrote exactly one report, with the names of the
    channels archived. Each of them was listed, is not whitelisted for the
    keywords of the run and has the membership condition. Every call to the
    archive endpoint made in the run is the archive request of one of them;
    and in a live run each of them has its archive request among the
    events. *)
Theorem main_archives_what_it_reports (e e' : Env) (evs : list event) :
  main self e = (Ret tt, e', evs) ->
  exists whitelist channels archived e0 ev0,
    get_whitelist_keywords self e = (Ret whitelist, e, []) /\
    get_all_channels self e = (Ret channels, e0, ev0) /\
    reports evs = [report_content archived] /\
    (forall channel, In channel archived ->
       In channel channels /\
       is_channel_whitelisted self channel whitelist = false /\
       has_min_users self (num_members channel) = true) /\
    (forall r, In (EvHttp r) evs -> is_archive_request (EvHttp r) = true ->
       exists channel, In channel archived /\ r = archive_request self channel) /\
    (dry_run (settings self) = false ->
     forall channel, In channel archived ->
       In (EvHttp (archive_request self channel)) evs).
Proof.
  intros H.
  apply main_ret_inv in H
    as (whitelist & alerts & channels & e0 & ev0 & ts & e1 & ev1 & ev2
        & Hwl & Hlist & Hts & Hadmin & -> & Hall).
  destruct (turns_safe self _ _ _ _ _ _ _ Hts) as (Hin & _ & Hlive).
  exists whitelist, channels, (archived_of ts), e0, ev0.
  split; [exact Hwl|]. split; [exact Hlist|]. split; [|split; [exact Hin|split]].
  - now apply main_ret_reports with (allowed := archived_of ts).
  - intros r Hr Harch.
    apply in_app_or in Hr as [Hr | [Hr | []]]; [|discriminate Hr].
    rewrite Forall_forall in Hall. exact (Hall _ Hr Harch).
  - intros Hdry channel Hc. apply in_or_app. left.
    apply in_or_app. right. apply in_or_app. right. apply in_or_app. left.
    now apply Hlive.
Qed.

(** X22. A dry run with an admin channel still posts to Slack: a run that
    returns has sent the admin report, as the bot, with the text that
    starts with the dry-run mark and lists the channels of the report. *)
Theorem main_dry_run_posts_admin_report (e e' : Env) (evs : list event) :
  main self e = (Ret tt, e', evs) ->
  dry_run (settings self) = true ->
  Str.truthy (admin_channel (settings self)) = true ->
  exists archived,
    reports evs = [report_content archived] /\
    In (EvHttp
          (message_request self (admin_channel (settings self))
             ("[DRY RUN] Archiving " ++ Str.of_nat (List.length archived)
                ++ " channels: "
                ++ Str.join ", "
                     (map (fun channel : Channel => ("#" ++ name channel)%string)
                        archived))%string))
       evs.
Proof.
  intros H Hdry Hadm.
  apply main_ret_inv in H
    as (whitelist & alerts & channels & e0 & ev0 & ts & e1 & ev1 & ev2
        & _ & _ & _ & Hadmin & -> & Hall).
  exists (archived_of ts).
  split; [now apply main_ret_reports with (allowed := archived_of ts)|].
  unfold send_admin_report in Hadmin. rewrite Hadm, Hdry in Hadmin.
  unfold send_channel_message in Hadmin.
  apply bind_ret_inv in Hadmin as (v & e2 & ev3 & ev4 & Hcall & _ & ->).
  apply slack_api_http_ret_sends in Hcall as [more ->].
  apply in_or_app. left.
  apply in_or_app. right. apply in_or_app. right. apply in_or_app. right.
  left. reflexivity.
Qed.

End Runs.

Lemma main_fails_before_listing_witness :
  (exists text,
     whitelist_keywords (settings Sample.reaper_with_keywords) = Some text /\
     Str.truthy text = true) /\
  main (RT := Sample.runtime) Sample.reaper_with_keywords (Sample.script, 100)
  = (Raise, (Sample.script, 100),
     [EvLogInfo "THIS IS A DRY RUN. NO CHANNELS ARE ACTUALLY ARCHIVED."]).
Proof.
  assert (H : exists text,
             whitelist_keywords (settings Sample.reaper_with_keywords) = Some text /\
             Str.truthy text = true).
  { exists "ops,random". split; reflexivity. }
  split; [exact H|].
  apply (main_fails_before_listing (RT := Sample.runtime)
           Sample.reaper_with_keywords (Sample.script, 100)).
  now left.
Defined.

Lemma main_not_authed_witness :
  let env := ([Cases.refusal "not_authed"], 100) in
  http_send (Runtime := Sample.runtime) env (listing_request Sample.reaper)
  = (([], 100), Some (Cases.refusal "not_authed")) /\
  main (RT := Sample.runtime) Sample.reaper env
  = (Exit 1, ([], 100),
     [EvLogInfo "THIS IS A DRY RUN. NO CHANNELS ARE ACTUALLY ARCHIVED.";
      EvHttp (listing_request Sample.reaper); EvLogError not_authed_line]).
Proof.
  intros env. split; [reflexivity|].
  apply (main_not_authed (RT := Sample.runtime) Sample.reaper 989 env ([], 100)
           (Cases.refusal "not_authed")
           [("ok", VBool false); ("error", VStr "not_authed")]
           (VDict [("channel_template", VStr "This channel is archived.")]));
    try reflexivity.
  now left.
Defined.

Lemma main_archives_what_it_reports_witness :
  let env :=
    ([ Sample.ok [("channels",
                   VList [Sample.raw Sample.old_proj; Sample.raw Sample.full_house;
                          Sample.raw Sample.keep_alive])];
       Sample.ok [("messages", VList [])];
       Sample.ok []; Sample.ok [];
       Sample.ok [("messages", VList [Sample.join_message])];
       Sample.ok [] ], 100) in
  let run := main (RT := Sample.runtime) Cases.live env in
  run = (Ret tt, snd (fst run), snd run) /\
  reports (snd run) = ["old-proj"] /\
  exists whitelist channels archived e0 ev0,
    get_whitelist_keywords (RT := Sample.runtime) Cases.live env
      = (Ret whitelist, env, []) /\
    get_all_channels (RT := Sample.runtime) Cases.live env
      = (Ret channels, e0, ev0) /\
    reports (snd run) = [report_content archived] /\
    (forall channel, In channel archived ->
       In channel channels /\
       is_channel_whitelisted Cases.live channel whitelist = false /\
       has_min_users Cases.live (num_members channel) = true) /\
    (forall r, In (EvHttp r) (snd run) -> is_archive_request (EvHttp r) = true ->
       exists channel, In channel archived /\ r = archive_request Cases.live channel) /\
    (dry_run (settings Cases.live) = false ->
     forall channel, In channel archived ->
       In (EvHttp (archive_request Cases.live channel)) (snd run)).
Proof.
  intros env run. split; [vm_compute; reflexivity|].
  split; [vm_compute; reflexivity|].
  apply (main_archives_what_it_reports (RT := Sample.runtime) Cases.live env
           (snd (fst run)) (snd run)).
  vm_compute. reflexivity.
Defined.

Lemma main_dry_run_posts_admin_report_witness :
  let env := ((Sample.script ++ [Sample.ok []])%list, 100) in
  let run := main (RT := Sample.runtime) Cases.dry_admin env in
  run = (Ret tt, snd (fst run), snd run) /\
  dry_run (settings Cases.dry_admin) = true /\
  Str.truthy (admin_channel (settings Cases.dry_admin)) = true /\
  In (EvHttp
        (message_request Cases.dry_admin "C99"
           "[DRY RUN] Archiving 1 channels: #old-proj"))
     (snd run) /\
  exists archived,
    reports (snd run) = [report_content archived] /\
    In (EvHttp
          (message_request Cases.dry_admin
             (admin_channel (settings Cases.dry_admin))
             ("[DRY RUN] Archiving " ++ Str.of_nat (List.length archived)
                ++ " channels: "
                ++ Str.join ", "
                     (map (fun channel : Channel => ("#" ++ name channel)%string)
                        archived))%string))
       (snd run).
Proof.
  intros env run. split; [vm_compute; reflexivity|].
  split; [reflexivity|]. split; [reflexivity|].
  split; [vm_compute; do 9 right; left; reflexivity|].
  apply (main_dry_run_posts_admin_report (RT := Sample.runtime) Cases.dry_admin
           env (snd (fst run)) (snd run));
    [vm_compute; reflexivity | reflexivity | reflexivity].
Defined.

(** ** The report and the listing *)

Lemma split_acc_lacks (sep : ascii) (text field rest : string) :
  lacks sep text = true ->
  Str.split_acc sep field (text ++ rest)%string
  = Str.split_acc sep (field ++ text)%string rest.
Proof.
  revert field. induction text as [|c text IH]; intros field Hl.
  - cbn [append]. f_equal. induction field as [|a f IHf]; [reflexivity|].
    cbn [append]. now rewrite <- IHf.
  - cbn [lacks] in Hl. apply andb_true_iff in Hl as [Hc Hl].
    apply negb_true_iff in Hc. cbn [append Str.split_acc]. rewrite Hc.
    rewrite (IH _ Hl). f_equal.
    induction field as [|a f IHf]; [reflexivity|].
    cbn [append]. now rewrite IHf.
Qed.

Lemma split_join (sep : ascii) (first : string) (more : list string) :
  Forall (fun text => lacks sep text = true) (first :: more) ->
  Str.split sep (Str.join (String sep EmptyString) (first :: more))
  = first :: more.
Proof.
  unfold Str.split, Str.join. revert first.
  induction more as [|next more IH]; intros first Hall.
  - cbn [String.concat]. inversion Hall as [|? ? Hf _]; subst.
    replace first with (first ++ "")%string at 1
      by (clear; induction first as [|a f IHf]; [reflexivity|cbn; now rewrite IHf]).
    now rewrite (split_acc_lacks sep first "" "" Hf).
  - inversion Hall as [|? ? Hf Hrest]; subst.
    cbn [String.concat].
    rewrite (split_acc_lacks sep first "" _ Hf). cbn [append Str.split_acc].
    rewrite Ascii.eqb_refl. f_equal. now apply IH.
Qed.

(** X23. The report can be read back: when at least one channel was archived and
    no name holds a line feed, the lines of the report are the names of the
    channels, in order. (An empty list gives an empty file, which reads
    back as one empty name.) *)
Theorem report_content_lines (channels : list Channel) :
  channels <> [] ->
  Forall (fun channel => lacks "010"%char (name channel) = true) channels ->
  Str.split "010"%char (report_content channels) = map name channels.
Proof.
  intros Hne Hall. unfold report_content.
  destruct channels as [|first more]; [contradiction|].
  cbn [map]. apply split_join.
  apply Forall_forall. intros text Hin.
  change (name first :: map name more) with (map name (first :: more)) in Hin.
  apply in_map_iff in Hin as (c & <- & Hc).
  rewrite Forall_forall in Hall. now apply Hall.
Qed.

Lemma report_content_lines_witness :
  [Sample.old_proj; Sample.keep_alive] <> [] /\
  Forall (fun channel => lacks "010"%char (name channel) = true)
    [Sample.old_proj; Sample.keep_alive] /\
  Str.split "010"%char (report_content [Sample.old_proj; Sample.keep_alive])
  = ["old-proj"; "keep"] /\
  Str.split "010"%char (report_content []) = [""].
Proof.
  assert (H : Forall (fun channel => lacks "010"%char (name channel) = true)
                [Sample.old_proj; Sample.keep_alive])
    by (repeat constructor).
  split; [discriminate|]. split; [exact H|]. split; [|reflexivity].
  apply (report_content_lines [Sample.old_proj; Sample.keep_alive]);
    [discriminate | exact H].
Defined.

Section Listing.

Context `{RT : Runtime} (self : ChannelReaper).



Lemma project_channels_none (raw : value) (raws : list value) :
  In raw raws -> project_channel raw = None -> project_channels raws = None.
Proof.
  induction raws as [|r rest IH]; intros Hin Hnone; [contradiction|].
  cbn [project_channels]. destruct Hin as [-> | Hin].
  - now rewrite Hnone.
  - destruct (project_channel r); [|reflexivity]. now rewrite IH.
Qed.


(** X25. The listing raises, and the run stops without a report, when the
    request is declined ([None] has no ["channels"]), and when one channel
    object of a successful response lacks one of the keys read: a single
    incomplete channel loses the whole listing. *)
Theorem get_all_channels_raises (frames : nat) (e e1 : Env) (resp : response) :
  recursion_limit = S frames ->
  http_send e (listing_request self) = (e1, Some resp) ->
  declined resp \/
  (status_code resp = 200 /\
   exists body ok raws raw,
     json resp = Some (VDict body) /\
     (forall err, lookup "error" body = Some err ->
        eq_str err "not_authed" = false) /\
     lookup "ok" body = Some ok /\ truthy ok = true /\
     lookup "channels" body = Some (VList raws) /\
     In raw raws /\
     (py_getitem raw "id" = None \/ py_getitem raw "name" = None \/
      py_getitem raw "created" = None \/ py_getitem raw "num_members" = None \/
      py_getitem raw "topic" = None \/ py_getitem raw "purpose" = None)) ->
  get_all_channels self e = (Raise, e1, [EvHttp (listing_request self)]) /\
  fst (fst (main self e)) <> Ret tt.
Proof.
  intros Hlimit Hsend Hcase.
  assert (Hlist : get_all_channels self e
                  = (Raise, e1, [EvHttp (listing_request self)])).
  { unfold get_all_channels. rewrite Hlimit.
    destruct Hcase as [Hdecl | (Hstatus & body & ok & raws & raw & Hjson & Herr
                                & Hok & Htrue & Hch & Hin & Hkeys)].
    - rewrite (bind_ret _ _ _ _ _ _
                 (exchange_declined self frames "conversations.list" _ "GET"
                    false e e1 resp Hsend Hdecl)).
      reflexivity.
    - pose proof (exchange_handled self frames "conversations.list"
                    [("exclude_archived", VInt 1); ("limit", VInt 1000)] "GET"
                    false e e1 resp body ok Hsend Hstatus Hjson Herr Hok) as Hcall.
      rewrite Htrue in Hcall. rewrite (bind_ret _ _ _ _ _ _ Hcall).
      cbn [py_getitem]. rewrite Hch, bind_lift_some. cbn [py_iter].
      rewrite bind_lift_some.
      assert (Hnone : project_channel raw = None).
      { unfold project_channel.
        destruct Hkeys as [-> | [-> | [-> | [-> | [-> | ->]]]]];
          repeat match goal with
                 | |- context [match ?x with _ => _ end] => destruct x
                 end; reflexivity. }
      now rewrite (project_channels_none raw raws Hin Hnone). }
  split; [exact Hlist|].
  intros Hret.
  destruct (main self e) as [[o e'] evs] eqn:Hmain. cbn [fst] in Hret. subst o.
  apply main_ret_inv in Hmain
    as (w & a & c & e0 & ev0 & ts & e2 & ev1 & ev2 & _ & Hl & _).
  rewrite Hlist in Hl. discriminate Hl.
Qed.

End Listing.


Lemma get_all_channels_raises_witness :
  let env := ([Cases.failure 503], 100) in
  http_send (Runtime := Sample.runtime) env (listing_request Sample.reaper)
  = (([], 100), Some (Cases.failure 503)) /\
  declined (Cases.failure 503) /\
  get_all_channels (RT := Sample.runtime) Sample.reaper env
  = (Raise, ([], 100), [EvHttp (listing_request Sample.reaper)]) /\
  fst (fst (main (RT := Sample.runtime) Sample.reaper env)) <> Ret tt.
Proof.
  intros env.
  assert (H : declined (Cases.failure 503)) by (left; split; discriminate).
  split; [reflexivity|]. split; [exact H|].
  apply (get_all_channels_raises (RT := Sample.runtime) Sample.reaper 989 env
           ([], 100) (Cases.failure 503) eq_refl eq_refl (or_introl H)).
Defined.
